(** * openai-nim-proxy: request transcoding and stream reassembly

    A shallow embedding of the proxy's three source files:
    - [Worker]: worker.js, the Cloudflare Worker deployment;
    - [Server]: server.js, the Express deployment, with the handler that
      reassembles the upstream event stream;
    - [Chat]: the Express handler of /api/chat, which prepends the
      thinking-mode system message to a copy of the messages.

    The JavaScript runtime the handlers rely on is modelled in
    [JSString] (string methods), [Num] (numbers and their decimal form),
    [Utf8] ([Buffer.toString]), [JS] (values, truthiness, property
    access, the [+] operator, inherited properties) and [JSON]
    ([JSON.parse], [JSON.stringify]).  Where JavaScript throws, the model
    returns [None].

    A JavaScript string is represented by the bytes of its UTF-8 encoding
    (a lone surrogate by its three-byte generalised encoding).  Every
    string operation of the handlers searches for, or cuts at, ASCII text
    only, so it reads the same on code units and on these bytes. *)

From Stdlib Require Import ZArith String Ascii List Bool Lia.
From Stdlib Require Import Floats.SpecFloat DecimalString.
From stdpp Require Import gmap strings list.

Local Open Scope string_scope.
Local Open Scope list_scope.

(** ** Strings *)

Module JSString.

Definition LF : ascii := "010"%char.
Definition CR : ascii := "013"%char.
Definition TAB : ascii := "009"%char.
Definition DQUOTE : ascii := "034"%char.
Definition BACKSLASH : ascii := "092"%char.

Definition nl : string := String LF EmptyString.

(** [s.startsWith(p)] *)
Definition startsWith (s p : string) : bool := String.prefix p s.

(** [s.includes(p)] *)
Fixpoint includes (s p : string) : bool :=
  String.prefix p s ||
  match s with
  | EmptyString => false
  | String _ t => includes t p
  end.

(** [s.slice(n)] for a non-negative [n]. *)
Fixpoint slice (s : string) (n : nat) : string :=
  match n, s with
  | O, _ => s
  | S k, String _ t => slice t k
  | S _, EmptyString => EmptyString
  end.

(** [s.split(sep)] for a one-character separator: never empty. *)
Fixpoint split (s : string) (sep : ascii) : list string :=
  match s with
  | EmptyString => [EmptyString]
  | String c t =>
      if Ascii.eqb c sep then EmptyString :: split t sep
      else match split t sep with
           | [] => [String c EmptyString]
           | h :: r => String c h :: r
           end
  end.

Definition is_upper (c : ascii) : bool :=
  (65 <=? nat_of_ascii c)%nat && (nat_of_ascii c <=? 90)%nat.

(** [s.toLowerCase()].  The ASCII capitals are mapped to their small
    letters.  Two code points outside ASCII have a lower case that
    contains an ASCII letter and are mapped too: U+212A (Kelvin sign,
    bytes E2 84 AA) to [k], and U+0130 (bytes C4 B0) to [i] followed by
    U+0307 (bytes CC 87).  Every other code point outside ASCII is left
    as it is: its lower case is again outside ASCII, and the handlers
    only search the result for ASCII words. *)
Fixpoint toLowerCase (s : string) : string :=
  match s with
  | EmptyString => EmptyString
  | String c t =>
      match nat_of_ascii c, t with
      | 226%nat, String c1 (String c2 t2) =>
          if (nat_of_ascii c1 =? 132)%nat && (nat_of_ascii c2 =? 170)%nat
          then String "k" (toLowerCase t2)
          else String c (toLowerCase t)
      | 196%nat, String c1 t1 =>
          if (nat_of_ascii c1 =? 176)%nat
          then String "i" (String "204" (String "135" (toLowerCase t1)))
          else String c (toLowerCase t)
      | n, _ =>
          if is_upper c then String (ascii_of_nat (n + 32)) (toLowerCase t)
          else String c (toLowerCase t)
      end
  end.

(** Text of the examples is written with an apostrophe where the wire
    has a double quote, and a vertical bar where it has a line feed. *)
Fixpoint wire (s : string) : string :=
  match s with
  | EmptyString => EmptyString
  | String c t =>
      String (if Ascii.eqb c "'" then DQUOTE
              else if Ascii.eqb c "|" then LF else c) (wire t)
  end.

End JSString.

(** ** Numbers

    A JavaScript number is an IEEE 754 binary64 value: [spec_float] at
    precision 53. *)

Module Num.

Local Open Scope Z_scope.

Definition prec : Z := 53.
Definition emax : Z := 1024.

Definition number := spec_float.

Definition is_zero (x : number) : bool :=
  match x with S754_zero _ => true | _ => false end.

Definition is_nan (x : number) : bool :=
  match x with S754_nan => true | _ => false end.

Definition add (x y : number) : number := SFadd prec emax x y.

Definition decimal (z : Z) : string := NilZero.string_of_uint (N.to_uint (Z.to_N z)).

Definition digits10 (m : Z) : Z := Z.of_nat (String.length (decimal m)).

(** The number nearest to [m * 10 ^ e] (ties to even), for [0 <= m]:
    what the runtime reads a decimal literal as.  Literals far out of
    range are cut short before the power of ten is computed. *)
Definition of_decimal (neg : bool) (m e : Z) : number :=
  match m with
  | Zpos p =>
      if 400 <? e then S754_infinity neg
      else if e + digits10 m <? -400 then S754_zero neg
      else if 0 <=? e then binary_round prec emax neg (p * Z.to_pos (10 ^ e)) 0
      else SFdiv prec emax (S754_finite neg p 0)
                           (S754_finite false (Z.to_pos (10 ^ (- e))) 0)
  | _ => S754_zero neg
  end.

(** [x ?= 10 ^ k] for the positive rational [x = n / d]. *)
Definition compare_pow10 (n d k : Z) : comparison :=
  if 0 <=? k then n ?= d * 10 ^ k else n * 10 ^ (- k) ?= d.

(** The [n] with [10 ^ (n - 1) <= x < 10 ^ n], searched from a guess. *)
Fixpoint magnitude (fuel : nat) (n d g : Z) : Z :=
  match fuel with
  | O => g
  | S fuel =>
      match compare_pow10 n d (g - 1) with
      | Lt => magnitude fuel n d (g - 1)
      | _ => match compare_pow10 n d g with
             | Lt => g
             | _ => magnitude fuel n d (g + 1)
             end
      end
  end.

Definition same (x y : number) : bool :=
  match x, y with
  | S754_finite s m e, S754_finite s' m' e' =>
      Bool.eqb s s' && (m =? m')%positive && (e =? e')
  | _, _ => false
  end.

(** The digits [s] (with [k] digits) and the exponent [n] of
    Number::toString: the shortest [s * 10 ^ (n - k)] that reads back as
    [x], the closest to [x] when there are two. *)
Fixpoint shortest (fuel : nat) (x : number) (num den n k : Z) : Z * Z :=
  match fuel with
  | O => (0, n)
  | S fuel =>
      let a := num * 10 ^ Z.max 0 (k - n) in
      let b := den * 10 ^ Z.max 0 (n - k) in
      let lo := a / b in
      let r := a mod b in
      let hi := lo + 1 in
      let ok_lo := same (of_decimal false lo (n - k)) x in
      let ok_hi := negb (r =? 0) && same (of_decimal false hi (n - k)) x in
      let pick_hi := if hi =? 10 ^ k then (10 ^ (k - 1), n + 1) else (hi, n) in
      match ok_lo, ok_hi with
      | true, false => (lo, n)
      | false, true => pick_hi
      | true, true =>
          match 2 * r ?= b with
          | Lt => (lo, n)
          | Gt => pick_hi
          | Eq => if Z.even lo then (lo, n) else pick_hi
          end
      | false, false => shortest fuel x num den n (k + 1)
      end
  end.

Fixpoint zeros (n : nat) : string :=
  match n with O => EmptyString | S n => String "0" (zeros n) end.

(** Trailing zeros of the digits carry no information. *)
Fixpoint normal (fuel : nat) (s : Z) : Z :=
  match fuel with
  | O => s
  | S fuel => if (s mod 10 =? 0) && negb (s =? 0) then normal fuel (s / 10) else s
  end.

Definition format (s n : Z) : string :=
  let digits := decimal s in
  let k := Z.of_nat (String.length digits) in
  if (k <=? n) && (n <=? 21) then
    digits +:+ zeros (Z.to_nat (n - k))
  else if (0 <? n) && (n <=? 21) then
    substring 0 (Z.to_nat n) digits +:+ "." +:+
    substring (Z.to_nat n) (Z.to_nat (k - n)) digits
  else if (-6 <? n) && (n <=? 0) then
    "0." +:+ zeros (Z.to_nat (- n)) +:+ digits
  else
    let e := n - 1 in
    let sign := if 0 <=? e then "+" else "-" in
    (if k =? 1 then digits
     else substring 0 1 digits +:+ "." +:+ substring 1 (Z.to_nat (k - 1)) digits)
    +:+ "e" +:+ sign +:+ decimal (Z.abs e).

(** Number::toString, radix 10. *)
Definition toString (x : number) : string :=
  match x with
  | S754_nan => "NaN"
  | S754_zero _ => "0"
  | S754_infinity s => if s then "-Infinity" else "Infinity"
  | S754_finite neg m e =>
      let num := if 0 <=? e then Zpos m * 2 ^ e else Zpos m in
      let den := if 0 <=? e then 1 else 2 ^ (- e) in
      let guess := (Z.log2 num - Z.log2 den) * 30103 / 100000 in
      let n := magnitude 8 num den guess in
      let '(s, n') := shortest 17 (S754_finite false m e) num den n 1 in
      (if neg then "-" else "") +:+ format (normal 17 s) n'
  end.

(** The number an integer reading of the clock is. *)
Definition of_int (z : Z) : number := of_decimal (z <? 0) (Z.abs z) 0.

(** [x / y] *)
Definition div (x y : number) : number := SFdiv prec emax x y.

(** [Math.floor(x)] *)
Definition floor (x : number) : number :=
  match x with
  | S754_finite s m e =>
      if 0 <=? e then x
      else
        let q := Zpos m / 2 ^ (- e) in
        let r := Zpos m mod 2 ^ (- e) in
        if s then of_decimal true (if r =? 0 then q else q + 1) 0
        else of_decimal false q 0
  | _ => x
  end.

End Num.

(** ** UTF-8

    [Buffer.prototype.toString()] decodes the bytes of a chunk as UTF-8
    and puts U+FFFD where they are not well formed; [res.write] encodes a
    string as UTF-8 again.  On the byte representation of strings the
    first keeps every well-formed character as it is and writes the bytes
    EF BF BD for every error, and the second is the identity. *)

Module Utf8.

Local Open Scope N_scope.

Definition REPLACEMENT : string :=
  String "239" (String "191" (String "189" EmptyString)).

(** For a lead byte: the number of continuation bytes and the bounds
    of the first of them. *)
Definition lead (b : N) : option (nat * N * N) :=
  if (194 <=? b) && (b <=? 223) then Some (1%nat, 128, 191)
  else if b =? 224 then Some (2%nat, 160, 191)
  else if b =? 237 then Some (2%nat, 128, 159)
  else if (225 <=? b) && (b <=? 239) then Some (2%nat, 128, 191)
  else if b =? 240 then Some (3%nat, 144, 191)
  else if (241 <=? b) && (b <=? 243) then Some (3%nat, 128, 191)
  else if b =? 244 then Some (3%nat, 128, 143)
  else None.

(** The decoder: [needed] continuation bytes are still to come, the
    next one within [lo..hi]; [seen] holds the bytes of the character
    read so far. *)
Fixpoint decode_from (needed : nat) (lo hi : N) (seen : string)
         (bytes : list Byte.byte) : string :=
  match bytes with
  | [] => match needed with O => EmptyString | S _ => REPLACEMENT end
  | b :: rest =>
      let n := Byte.to_N b in
      let c := ascii_of_byte b in
      let start :=
        if n <? 128 then String c (decode_from 0 128 191 EmptyString rest)
        else match lead n with
             | Some (k, l, h) => decode_from k l h (String c EmptyString) rest
             | None => REPLACEMENT +:+ decode_from 0 128 191 EmptyString rest
             end in
      match needed with
      | O => start
      | S k =>
          if (lo <=? n) && (n <=? hi) then
            match k with
            | O => seen +:+ String c (decode_from 0 128 191 EmptyString rest)
            | S _ => decode_from k 128 191 (seen +:+ String c EmptyString) rest
            end
          else REPLACEMENT +:+ start
      end
  end.

(** [buf.toString()] *)
Definition Buffer_toString (bytes : list Byte.byte) : string :=
  decode_from 0 128 191 EmptyString bytes.

Definition byte_chr (n : N) : ascii := ascii_of_N n.

(** The encoding of one code point; a surrogate code unit gets the
    three bytes of the generalised encoding. *)
Definition encode (cp : N) : string :=
  if cp <? 128 then String (byte_chr cp) EmptyString
  else if cp <? 2048 then
    String (byte_chr (192 + cp / 64)) (String (byte_chr (128 + cp mod 64)) EmptyString)
  else if cp <? 65536 then
    String (byte_chr (224 + cp / 4096))
      (String (byte_chr (128 + (cp / 64) mod 64))
         (String (byte_chr (128 + cp mod 64)) EmptyString))
  else
    String (byte_chr (240 + cp / 262144))
      (String (byte_chr (128 + (cp / 4096) mod 64))
         (String (byte_chr (128 + (cp / 64) mod 64))
            (String (byte_chr (128 + cp mod 64)) EmptyString))).

(** [s[0]]: the first code unit of [s] as a string, if there is one.
    A character of four bytes starts with its high surrogate. *)
Definition first_unit (s : string) : option string :=
  match s with
  | EmptyString => None
  | String c t =>
      let n := N_of_ascii c in
      if n <? 128 then Some (String c EmptyString)
      else if n <? 224 then Some (substring 0 2 s)
      else if n <? 240 then Some (substring 0 3 s)
      else
        match t with
        | String c1 (String c2 _) =>
            let cp := (n mod 8) * 262144 + (N_of_ascii c1 mod 64) * 4096
                      + (N_of_ascii c2 mod 64) * 64 in
            Some (encode (55296 + (cp - 65536) / 1024))
        | _ => Some s
        end
  end.

(** The bytes of a string, as a chunk of the upstream body. *)
Definition bytes (s : string) : list Byte.byte := list_byte_of_string s.

(** The number of continuation bytes the decoder still waits for after
    [bytes], started like [decode_from]. *)
Fixpoint pending (needed : nat) (lo hi : N) (bytes : list Byte.byte) : nat :=
  match bytes with
  | [] => needed
  | b :: rest =>
      let n := Byte.to_N b in
      let start :=
        if n <? 128 then pending 0 128 191 rest
        else match lead n with
             | Some (k, l, h) => pending k l h rest
             | None => pending 0 128 191 rest
             end in
      match needed with
      | O => start
      | S k =>
          if (lo <=? n) && (n <=? hi) then pending k 128 191 rest
          else start
      end
  end.

(** The bytes end between two characters: no character is cut. *)
Definition at_boundary (bytes : list Byte.byte) : Prop :=
  pending 0 128 191 bytes = O.

(** The text of a body, as [json()] and [text()] decode it: a byte order
    mark at the start is left out. *)
Definition decode_body (bytes : list Byte.byte) : string :=
  match bytes with
  | Byte.xef :: Byte.xbb :: Byte.xbf :: rest => Buffer_toString rest
  | _ => Buffer_toString bytes
  end.

End Utf8.

(** ** Values

    The values [JSON.parse] produces, and [undefined] for what is
    missing.  The properties of an object are kept in the order in which
    the runtime enumerates them: array indices in ascending order, then
    the other keys in the order of their creation. *)

Module JS.

Unset Elimination Schemes.

Inductive value : Type :=
| VUndefined
| VNull
| VBool (b : bool)
| VNum (n : Num.number)
| VStr (s : string)
| VArr (elems : list value)
| VObj (props : list (string * value)).

Set Elimination Schemes.

(** ToBoolean *)
Definition truthy (v : value) : bool :=
  match v with
  | VUndefined | VNull => false
  | VBool b => b
  | VNum n => negb (Num.is_zero n || Num.is_nan n)
  | VStr s => negb (s =? "")
  | VArr _ | VObj _ => true
  end.

(** [a || b] *)
Definition or (a b : value) : value := if truthy a then a else b.

(** The number [0]. *)
Definition zero : value := VNum (S754_zero false).

(** A field that holds text, or is missing. *)
Definition field (text : option string) : value :=
  from_option VStr VUndefined text.

(** [typeof v !== 'undefined'] *)
Definition defined (v : value) : bool :=
  match v with VUndefined => false | _ => true end.

(** *** Own properties *)

Fixpoint own (props : list (string * value)) (key : string) : option value :=
  match props with
  | [] => None
  | (k, v) :: rest => if k =? key then Some v else own rest key
  end.

(** The array index a key denotes, if it is the canonical decimal of an
    integer below 2^32 - 1. *)
Definition array_index (key : string) : option Z :=
  match NilZero.uint_of_string key with
  | Some u =>
      let n := Z.of_N (N.of_uint u) in
      if (Num.decimal n =? key) && (n <? 4294967295)%Z then Some n else None
  | None => None
  end.

Fixpoint replace (props : list (string * value)) (key : string) (v : value)
  : option (list (string * value)) :=
  match props with
  | [] => None
  | (k, x) :: rest =>
      if k =? key then Some ((k, v) :: rest)
      else option_map (cons (k, x)) (replace rest key v)
  end.

(** A new index key goes before the first key that is no index or a
    larger one. *)
Fixpoint insert_index (props : list (string * value)) (i : Z) (key : string)
         (v : value) : list (string * value) :=
  match props with
  | [] => [(key, v)]
  | (k, x) :: rest =>
      match array_index k with
      | Some j => if (j <? i)%Z then (k, x) :: insert_index rest i key v
                  else (key, v) :: props
      | None => (key, v) :: props
      end
  end.

(** [o[key] = v] on an object. *)
Definition set (props : list (string * value)) (key : string) (v : value)
  : list (string * value) :=
  match replace props key v with
  | Some props' => props'
  | None =>
      match array_index key with
      | Some i => insert_index props i key v
      | None => props ++ [(key, v)]
      end
  end.

(** [delete o[key]] on an object. *)
Fixpoint remove (props : list (string * value)) (key : string)
  : list (string * value) :=
  match props with
  | [] => []
  | (k, x) :: rest => if k =? key then rest else (k, x) :: remove rest key
  end.

(** [v.name], for a name that no built-in prototype defines (the
    handlers read [choices], [delta], [content], [reasoning_content]).
    [None] is the TypeError of reading a property of [null] or
    [undefined]. *)
Definition get (v : value) (name : string) : option value :=
  match v with
  | VUndefined | VNull => None
  | VObj props => Some (default VUndefined (own props name))
  | _ => Some VUndefined
  end.

(** [v[0]] *)
Definition get0 (v : value) : option value :=
  match v with
  | VUndefined | VNull => None
  | VObj props => Some (default VUndefined (own props "0"))
  | VArr elems => Some (hd VUndefined elems)
  | VStr s => Some (from_option VStr VUndefined (Utf8.first_unit s))
  | _ => Some VUndefined
  end.

Definition nullish (v : value) : bool :=
  match v with VUndefined | VNull => true | _ => false end.

(** [v?.name] and [v?.[0]], for a [v] already evaluated. *)
Definition opt_get (v : value) (name : string) : value :=
  if nullish v then VUndefined else default VUndefined (get v name).

Definition opt_get0 (v : value) : value :=
  if nullish v then VUndefined else default VUndefined (get0 v).

(** *** Conversions *)

Fixpoint join (sep : string) (parts : list string) : string :=
  match parts with
  | [] => EmptyString
  | [p] => p
  | p :: rest => p +:+ sep +:+ join sep rest
  end.

Fixpoint sequence (l : list (option string)) : option (list string) :=
  match l with
  | [] => Some []
  | Some x :: rest => option_map (cons x) (sequence rest)
  | None :: _ => None
  end.

(** ToString.  An array is joined with commas, [null] and [undefined]
    elements giving the empty string.  An object gives
    [[object Object]], unless it has an own property [toString]: that
    one is no function, and the conversion is a TypeError ([None]). *)
Fixpoint toString (v : value) : option string :=
  match v with
  | VUndefined => Some "undefined"
  | VNull => Some "null"
  | VBool b => Some (if b then "true" else "false")
  | VNum n => Some (Num.toString n)
  | VStr s => Some s
  | VArr elems =>
      option_map (join ",")
        (sequence (map (fun e => if nullish e then Some EmptyString else toString e)
                       elems))
  | VObj props =>
      match own props "toString" with
      | Some _ => None
      | None => Some "[object Object]"
      end
  end.

(** ToPrimitive *)
Definition toPrimitive (v : value) : option value :=
  match v with
  | VArr _ | VObj _ => option_map VStr (toString v)
  | _ => Some v
  end.

(** ToNumber of a primitive that is no string. *)
Definition toNumber (v : value) : Num.number :=
  match v with
  | VNum n => n
  | VBool true => Num.of_decimal false 1 0
  | VBool false | VNull => S754_zero false
  | _ => S754_nan
  end.

Definition is_string (v : value) : bool :=
  match v with VStr _ => true | _ => false end.

(** [a + b]: concatenation when a side is a string once made
    primitive, addition of numbers otherwise. *)
Definition plus (a b : value) : option value :=
  match toPrimitive a, toPrimitive b with
  | Some pa, Some pb =>
      if is_string pa || is_string pb then
        match toString pa, toString pb with
        | Some sa, Some sb => Some (VStr (sa +:+ sb))
        | _, _ => None
        end
      else Some (VNum (Num.add (toNumber pa) (toNumber pb)))
  | _, _ => None
  end.

(** *** Inherited properties

    An object literal inherits the properties of [Object.prototype];
    reading one of these names from it gives a function ([__proto__]:
    the prototype object itself), which is truthy and is no string. *)

Definition Object_prototype : list string :=
  [ "constructor"; "__defineGetter__"; "__defineSetter__"; "hasOwnProperty";
    "__lookupGetter__"; "__lookupSetter__"; "isPrototypeOf";
    "propertyIsEnumerable"; "toString"; "valueOf"; "__proto__";
    "toLocaleString" ].

Definition inherited (key : string) : bool :=
  existsb (String.eqb key) Object_prototype.

(** What an expression of the handlers can hold: a value as above, or
    the built-in found under an inherited name. *)
Inductive any : Type :=
| Data (v : value)
| Native (name : string).

Definition truthy_any (a : any) : bool :=
  match a with
  | Data v => truthy v
  | Native _ => true
  end.

(** [a || b] *)
Definition or_any (a b : any) : any := if truthy_any a then a else b.

Fixpoint assoc (table : list (string * string)) (key : string) : option string :=
  match table with
  | [] => None
  | (k, v) :: rest => if k =? key then Some v else assoc rest key
  end.

(** [table[key]] for an object literal with string values. *)
Definition lookup (table : list (string * string)) (key : string) : any :=
  match assoc table key with
  | Some v => Data (VStr v)
  | None => if inherited key then Native key else Data VUndefined
  end.

(** [a ?? b] *)
Definition nullish_or (a b : value) : value := if nullish a then b else a.

(** What [JSON.stringify] sees of a property that holds [a]: a function
    is left out like [undefined]; the object under [__proto__] has no
    property of its own. *)
Definition any_json (a : any) : value :=
  match a with
  | Data v => v
  | Native name => if name =? "__proto__" then VObj [] else VUndefined
  end.

(** The usage of a response that reports none. *)
Definition zero_usage : value :=
  VObj [("prompt_tokens", zero); ("completion_tokens", zero);
        ("total_tokens", zero)].

(** [Object.keys(table)] for a table none of whose keys is an array
    index: the keys in the order they are written. *)
Definition keys (table : list (string * string)) : list string := map fst table.

End JS.

(** ** JSON *)

Module JSON.

Import JSString JS.
Local Open Scope N_scope.

Definition is_ws (c : ascii) : bool :=
  let n := N_of_ascii c in (n =? 32) || (n =? 9) || (n =? 10) || (n =? 13).

Fixpoint skip_ws (s : string) : string :=
  match s with
  | String c t => if is_ws c then skip_ws t else s
  | EmptyString => s
  end.

Definition is_digit (c : ascii) : bool :=
  (48 <=? N_of_ascii c) && (N_of_ascii c <=? 57).

Definition hex_value (c : ascii) : option N :=
  let n := N_of_ascii c in
  if (48 <=? n) && (n <=? 57) then Some (n - 48)
  else if (97 <=? n) && (n <=? 102) then Some (n - 87)
  else if (65 <=? n) && (n <=? 70) then Some (n - 55)
  else None.

Definition hex4 (a b c d : ascii) : option N :=
  match hex_value a, hex_value b, hex_value c, hex_value d with
  | Some x, Some y, Some z, Some w => Some (((x * 16 + y) * 16 + z) * 16 + w)
  | _, _, _, _ => None
  end.

Definition simple_escape (c : ascii) : option ascii :=
  if Ascii.eqb c DQUOTE then Some DQUOTE
  else if Ascii.eqb c BACKSLASH then Some BACKSLASH
  else if Ascii.eqb c "/" then Some "/"%char
  else if Ascii.eqb c "b" then Some "008"%char
  else if Ascii.eqb c "f" then Some "012"%char
  else if Ascii.eqb c "n" then Some LF
  else if Ascii.eqb c "r" then Some CR
  else if Ascii.eqb c "t" then Some TAB
  else None.

Definition prepend (p : string) (r : option (string * string))
  : option (string * string) :=
  match r with
  | Some (s, rest) => Some (p +:+ s, rest)
  | None => None
  end.

(** The characters of a string literal after its opening quote: the
    string they denote and the text after the closing quote.  An escaped
    code unit is written out on its own. *)
Fixpoint chars (s : string) : option (string * string) :=
  match s with
  | EmptyString => None
  | String c t =>
      if Ascii.eqb c DQUOTE then Some (EmptyString, t)
      else if Ascii.eqb c BACKSLASH then
        match t with
        | String e t1 =>
            match simple_escape e with
            | Some x => prepend (String x EmptyString) (chars t1)
            | None =>
                if Ascii.eqb e "u" then
                  match t1 with
                  | String h1 (String h2 (String h3 (String h4 t2))) =>
                      match hex4 h1 h2 h3 h4 with
                      | Some u => prepend (Utf8.encode u) (chars t2)
                      | None => None
                      end
                  | _ => None
                  end
                else None
            end
        | EmptyString => None
        end
      else if N_of_ascii c <? 32 then None
      else prepend (String c EmptyString) (chars t)
  end.

Fixpoint digits (s : string) : string * string :=
  match s with
  | String c t =>
      if is_digit c then let '(d, r) := digits t in (String c d, r)
      else (EmptyString, s)
  | EmptyString => (EmptyString, s)
  end.

Fixpoint to_Z (acc : Z) (ds : string) : Z :=
  match ds with
  | EmptyString => acc
  | String c t => to_Z (acc * 10 + Z.of_N (N_of_ascii c - 48)) t
  end.

Definition fraction (s : string) : option (string * string) :=
  match s with
  | String "." t =>
      let '(d, r) := digits t in
      if String.eqb d EmptyString then None else Some (d, r)
  | _ => Some (EmptyString, s)
  end.

Definition exponent (s : string) : option (Z * string) :=
  match s with
  | String c t =>
      if Ascii.eqb c "e" || Ascii.eqb c "E" then
        let '(neg, t') :=
          match t with
          | String "-" u => (true, u)
          | String "+" u => (false, u)
          | _ => (false, t)
          end in
        let '(d, r) := digits t' in
        if String.eqb d EmptyString then None
        else Some (if neg then (- to_Z 0 d)%Z else to_Z 0 d, r)
      else Some (0%Z, s)
  | EmptyString => Some (0%Z, s)
  end.

(** A number literal: the nearest binary64 value and the rest. *)
Definition number (s : string) : option (Num.number * string) :=
  let '(neg, s1) :=
    match s with String "-" t => (true, t) | _ => (false, s) end in
  match s1 with
  | String c t =>
      if is_digit c then
        let '(int, s2) :=
          if Ascii.eqb c "0" then ("0", t) else digits s1 in
        match fraction s2 with
        | Some (frac, s3) =>
            match exponent s3 with
            | Some (e, s4) =>
                Some (Num.of_decimal neg (to_Z 0 (int +:+ frac))
                        (e - Z.of_nat (String.length frac)), s4)
            | None => None
            end
        | None => None
        end
      else None
  | EmptyString => None
  end.

Definition keyword (s word : string) (v : value) : option (value * string) :=
  if startsWith s word then Some (v, slice s (String.length word)) else None.

(** One value, the elements of an array after its bracket or a comma,
    the members of an object after its brace or a comma.  Every call
    spends one unit of fuel. *)
Fixpoint element (fuel : nat) (s : string) : option (value * string) :=
  match fuel with
  | O => None
  | S fuel =>
      match skip_ws s with
      | EmptyString => None
      | String c t as s' =>
          if Ascii.eqb c "{" then
            match skip_ws t with
            | String "}" r => Some (VObj [], r)
            | _ => members fuel [] t
            end
          else if Ascii.eqb c "[" then
            match skip_ws t with
            | String "]" r => Some (VArr [], r)
            | _ => elements fuel [] t
            end
          else if Ascii.eqb c DQUOTE then
            match chars t with
            | Some (str, r) => Some (VStr str, r)
            | None => None
            end
          else if Ascii.eqb c "t" then keyword s' "true" (VBool true)
          else if Ascii.eqb c "f" then keyword s' "false" (VBool false)
          else if Ascii.eqb c "n" then keyword s' "null" VNull
          else
            match number s' with
            | Some (n, r) => Some (VNum n, r)
            | None => None
            end
      end
  end

with elements (fuel : nat) (acc : list value) (s : string)
  : option (value * string) :=
  match fuel with
  | O => None
  | S fuel =>
      match element fuel s with
      | Some (v, r) =>
          match skip_ws r with
          | String "," r' => elements fuel (acc ++ [v]) r'
          | String "]" r' => Some (VArr (acc ++ [v]), r')
          | _ => None
          end
      | None => None
      end
  end

with members (fuel : nat) (acc : list (string * value)) (s : string)
  : option (value * string) :=
  match fuel with
  | O => None
  | S fuel =>
      match skip_ws s with
      | String c t =>
          if Ascii.eqb c DQUOTE then
            match chars t with
            | Some (key, r) =>
                match skip_ws r with
                | String ":" r1 =>
                    match element fuel r1 with
                    | Some (v, r2) =>
                        match skip_ws r2 with
                        | String "," r3 => members fuel (JS.set acc key v) r3
                        | String "}" r3 => Some (VObj (JS.set acc key v), r3)
                        | _ => None
                        end
                    | None => None
                    end
                | _ => None
                end
            | None => None
            end
          else None
      | EmptyString => None
      end
  end.

(** [JSON.parse(text)]; [None] is its SyntaxError. *)
Definition parse (text : string) : option value :=
  match element (2 * String.length text + 2) text with
  | Some (v, rest) =>
      match skip_ws rest with
      | EmptyString => Some v
      | _ => None
      end
  | None => None
  end.

Definition hex_digit (n : N) : ascii :=
  if n <? 10 then ascii_of_N (48 + n) else ascii_of_N (87 + n).

Definition escape_unit (u : N) : string :=
  String BACKSLASH
    (String "u"
       (String (hex_digit (u / 4096))
          (String (hex_digit ((u / 256) mod 16))
             (String (hex_digit ((u / 16) mod 16))
                (String (hex_digit (u mod 16)) EmptyString))))).

Definition escaped (c : ascii) : string :=
  String BACKSLASH (String c EmptyString).

(** The surrogate code unit that the bytes ED [c1] [c2] encode. *)
Definition surrogate (c1 c2 : ascii) : N :=
  53248 + (N_of_ascii c1 mod 64) * 64 + N_of_ascii c2 mod 64.

(** The characters of QuoteJSONString.  A surrogate that has no partner
    is escaped; a high one followed by a low one is the character of
    the pair. *)
Fixpoint quote_chars (s : string) : string :=
  match s with
  | EmptyString => EmptyString
  | String c t =>
      let n := N_of_ascii c in
      if Ascii.eqb c DQUOTE then escaped DQUOTE +:+ quote_chars t
      else if Ascii.eqb c BACKSLASH then escaped BACKSLASH +:+ quote_chars t
      else if n =? 8 then escaped "b" +:+ quote_chars t
      else if n =? 9 then escaped "t" +:+ quote_chars t
      else if n =? 10 then escaped "n" +:+ quote_chars t
      else if n =? 12 then escaped "f" +:+ quote_chars t
      else if n =? 13 then escaped "r" +:+ quote_chars t
      else if n <? 32 then escape_unit n +:+ quote_chars t
      else
        match t with
        | String c1 (String c2 t2) =>
            if (n =? 237) && (160 <=? N_of_ascii c1) then
              let u := surrogate c1 c2 in
              match t2 with
              | String d (String d1 (String d2 t3)) =>
                  if (u <? 56320) && (N_of_ascii d =? 237)
                     && (176 <=? N_of_ascii d1) then
                    Utf8.encode (65536 + (u - 55296) * 1024
                                 + (surrogate d1 d2 - 56320))
                    +:+ quote_chars t3
                  else escape_unit u +:+ quote_chars t2
              | _ => escape_unit u +:+ quote_chars t2
              end
            else String c (quote_chars t)
        | _ => String c (quote_chars t)
        end
  end.

Definition quote (s : string) : string :=
  String DQUOTE (quote_chars s +:+ String DQUOTE EmptyString).

Definition finite (n : Num.number) : bool :=
  match n with S754_finite _ _ _ | S754_zero _ => true | _ => false end.

Fixpoint somes (l : list (option string)) : list string :=
  match l with
  | [] => []
  | Some x :: rest => x :: somes rest
  | None :: rest => somes rest
  end.

(** [JSON.stringify(v)]; [None] is its [undefined]. *)
Fixpoint stringify (v : value) : option string :=
  match v with
  | VUndefined => None
  | VNull => Some "null"
  | VBool b => Some (if b then "true" else "false")
  | VNum n => Some (if finite n then Num.toString n else "null")
  | VStr s => Some (quote s)
  | VArr elems =>
      Some ("[" +:+ join "," (map (fun e => default "null" (stringify e)) elems)
            +:+ "]")
  | VObj props =>
      Some ("{" +:+
            join ","
              (somes (map (fun kv =>
                             match kv with
                             | (k, x) =>
                                 option_map (fun sx => quote k +:+ ":" +:+ sx)
                                            (stringify x)
                             end) props))
            +:+ "}")
  end.

(** [`${JSON.stringify(v)}`] *)
Definition stringified (v : value) : string :=
  default "undefined" (stringify v).

End JSON.

(** ** worker.js *)

Module Worker.

Import JSString JS.

Definition MODEL_MAPPING : list (string * string) :=
  [ ("gpt-3.5-turbo", "nvidia/llama-3.1-nemotron-ultra-253b-v1");
    ("gpt-4", "qwen/qwen3-coder-480b-a35b-instruct");
    ("gpt-4-turbo", "moonshotai/kimi-k2-instruct-0905");
    ("gpt-4o", "deepseek-ai/deepseek-v3.1");
    ("claude-3-opus", "openai/gpt-oss-120b");
    ("claude-3-sonnet", "openai/gpt-oss-20b");
    ("gemini-pro", "qwen/qwen3-next-80b-a3b-thinking") ].

Definition SHOW_REASONING : bool := true.
Definition ENABLE_THINKING_MODE : bool := true.

(** The ladder of the fallback, on the lower-cased model. *)
Definition fallback (modelLower : string) : string :=
  if includes modelLower "gpt-4" || includes modelLower "claude-opus"
     || includes modelLower "405b"
  then "meta/llama-3.1-405b-instruct"
  else if includes modelLower "claude" || includes modelLower "gemini"
          || includes modelLower "70b"
  then "meta/llama-3.1-70b-instruct"
  else "meta/llama-3.1-8b-instruct".

(** [nimModel], for the [model] of the body (a string; [''] when the
    body has none). *)
Definition resolve (model : string) : any :=
  let nimModel := lookup MODEL_MAPPING model in
  if negb (truthy_any nimModel) then
    let modelLower := toLowerCase (if truthy (VStr model) then model else "") in
    Data (VStr (fallback modelLower))
  else nimModel.

Record request : Type := {
  model : any;
  messages : value;
  temperature : value;
  max_tokens : value;
  extra_body : value;
  stream : value
}.

(** [nimRequestBody], from the fields of the body; a field the body
    does not have is [undefined].  The destructuring gives [model] the
    default [''] and [messages] the default [[]]. *)
Definition nimRequestBody (model : string) (messages temperature max_tokens stream : value)
  : request :=
  {| model := resolve model;
     messages := if defined messages then messages else VArr [];
     temperature :=
       if defined temperature then temperature
       else VNum (Num.of_decimal false 6 (-1));
     max_tokens :=
       if defined max_tokens then max_tokens
       else VNum (Num.of_decimal false 9024 0);
     extra_body :=
       if ENABLE_THINKING_MODE
       then VObj [("chat_template_kwargs", VObj [("thinking", VBool true)])]
       else VUndefined;
     stream := VBool (truthy stream) |}.

(** [openaiResponse.model]: [model || nimJson.model || nimModel]. *)
Definition response_model (model : string) (nimJson_model : value) : any :=
  or_any (or_any (Data (VStr model)) (Data nimJson_model)) (resolve model).

(** *** The response to a request that does not stream *)

(** [nimModel] for any [model] of the body: the table is read under the
    key the model converts to, and only a string has [toLowerCase].
    [None] is a TypeError. *)
Definition resolve_value (model : value) : option any :=
  match toString model with
  | None => None
  | Some key =>
      let nimModel := lookup MODEL_MAPPING key in
      if negb (truthy_any nimModel) then
        match or model (VStr "") with
        | VStr s => Some (Data (VStr (fallback (toLowerCase s))))
        | _ => None
        end
      else Some nimModel
  end.

(** [nimRequestBody] with [nimModel] given. *)
Definition nimRequestBody_with (nimModel : any)
           (messages temperature max_tokens stream : value) : request :=
  {| model := nimModel;
     messages := if defined messages then messages else VArr [];
     temperature :=
       if defined temperature then temperature
       else VNum (Num.of_decimal false 6 (-1));
     max_tokens :=
       if defined max_tokens then max_tokens
       else VNum (Num.of_decimal false 9024 0);
     extra_body :=
       if ENABLE_THINKING_MODE
       then VObj [("chat_template_kwargs", VObj [("thinking", VBool true)])]
       else VUndefined;
     stream := VBool (truthy stream) |}.

(** The request as [JSON.stringify] sees it. *)
Definition request_json (r : request) : value :=
  VObj [("model", any_json (model r)); ("messages", messages r);
        ("temperature", temperature r); ("max_tokens", max_tokens r);
        ("extra_body", extra_body r); ("stream", stream r)].

(** [full] in the callback of [nimJson.choices.map]; [None] is a
    TypeError. *)
Definition full (choice : value) : option value :=
  match get choice "message" with
  | None => None
  | Some message =>
      let content :=
        nullish_or
          (nullish_or (opt_get message "content")
                      (default VUndefined (get choice "content")))
          (VStr "") in
      let reasoning :=
        nullish_or (opt_get message "reasoning_content")
                   (default VUndefined (get choice "reasoning_content")) in
      if SHOW_REASONING && truthy reasoning then
        match toString reasoning, toString content with
        | Some r, Some c =>
            Some (VStr ("<think>" +:+ nl +:+ r +:+ nl +:+ "</think>" +:+ nl
                        +:+ nl +:+ c))
        | _, _ => None
        end
      else Some content
  end.

(** The callback of [nimJson.choices.map]. *)
Definition choice_of (choice : value) : option value :=
  match full choice with
  | None => None
  | Some content =>
      let message := default VUndefined (get choice "message") in
      Some (VObj
              [("index", nullish_or (default VUndefined (get choice "index")) zero);
               ("message",
                VObj [("role", nullish_or (opt_get message "role") (VStr "assistant"));
                      ("content", content)]);
               ("finish_reason",
                nullish_or (default VUndefined (get choice "finish_reason")) VNull)])
  end.

(** [model || nimJson.model || nimModel] for any [model]. *)
Definition response_model_of (model nimJson_model : value) (nimModel : any) : any :=
  or_any (or_any (Data model) (Data nimJson_model)) nimModel.

(** [openaiResponse], as [JSON.stringify] sees it, for an [nimJson] that
    is truthy; [clock k] is what the call number [k] of [Date.now()]
    gives.  [None] is a TypeError. *)
Definition openaiResponse (clock : nat -> Z) (model : value) (nimModel : any)
           (nimJson : value) : option value :=
  let choices :=
    match default VUndefined (get nimJson "choices") with
    | VArr elems => mapM choice_of elems
    | _ => Some []
    end in
  match choices with
  | Some choices =>
      Some (VObj
              [("id", VStr ("chatcmpl-" +:+ Num.toString (Num.of_int (clock 0%nat))));
               ("object", VStr "chat.completion");
               ("created",
                VNum (Num.floor (Num.div (Num.of_int (clock 1%nat))
                                         (Num.of_int 1000))));
               ("model",
                any_json (response_model_of model
                            (default VUndefined (get nimJson "model")) nimModel));
               ("choices", VArr choices);
               ("usage",
                nullish_or (default VUndefined (get nimJson "usage")) zero_usage)])
  | None => None
  end.

(** *** The handler of the requests *)

(** What the runtime throws. *)
Inductive exn : Type :=
| ReferenceError (name : string)
| TypeError
| RangeError
| FetchError (message : string).

(** The body of a response: none, a text, or the stream of an upstream
    body handed on. *)
Inductive payload : Type :=
| NoBody
| Text (text : string)
| Stream (chunks : list (list Byte.byte)).

Record response : Type := {
  status : Z;
  headers : list (string * value);
  body : payload
}.

(** [{ ...target, ...source }] *)
Definition assign (target source : list (string * value)) : list (string * value) :=
  fold_left (fun acc kv => JS.set acc (fst kv) (snd kv)) source target.

Definition null_body_status (status : Z) : bool :=
  ((status =? 101) || (status =? 103) || (status =? 204) || (status =? 205)
   || (status =? 304))%Z.

(** [new Response(body, { status, headers })]: a RangeError for a status
    outside 200..599, a TypeError for a body with a status that takes
    none. *)
Definition new_Response (body : payload) (status : Z)
           (headers : list (string * value)) : exn + response :=
  if ((status <? 200) || (599 <? status))%Z then inl RangeError
  else if null_body_status status
          && match body with NoBody => false | _ => true end
  then inl TypeError
  else inr {| status := status; headers := headers; body := body |}.

Definition corsHeaders : list (string * value) :=
  [("Access-Control-Allow-Origin", VStr "*");
   ("Access-Control-Allow-Methods", VStr "GET,POST,OPTIONS");
   ("Access-Control-Allow-Headers", VStr "Content-Type,Authorization")].

Definition jsonResponse (obj : value) (status : Z)
           (extraHeaders : list (string * value)) : exn + response :=
  new_Response (Text (JSON.stringified obj)) status
    (assign (assign [("Content-Type", VStr "application/json;charset=UTF-8")]
                    corsHeaders)
            extraHeaders).

Definition textResponse (text : string) (status : Z)
           (extraHeaders : list (string * value)) : exn + response :=
  new_Response (Text text) status
    (assign (assign [("Content-Type", VStr "text/plain;charset=UTF-8")]
                    corsHeaders)
            extraHeaders).

Definition healthPayload : value :=
  VObj [("status", VStr "ok");
        ("service", VStr "OpenAI to NVIDIA NIM Proxy (Cloudflare Worker)");
        ("reasoning_display", VBool SHOW_REASONING);
        ("thinking_mode", VBool ENABLE_THINKING_MODE)].

(** The entries of /v1/models for the keys [ids], the first of them made
    at the call number [k] of [Date.now()]. *)
Fixpoint models_from (clock : nat -> Z) (k : nat) (ids : list string) : list value :=
  match ids with
  | [] => []
  | m :: rest =>
      VObj [("id", VStr m); ("object", VStr "model");
            ("created", VNum (Num.of_int (clock k)));
            ("owned_by", VStr "nvidia-nim-proxy")]
      :: models_from clock (S k) rest
  end.

Definition models (clock : nat -> Z) : list value :=
  models_from clock 0 (keys MODEL_MAPPING).

Definition DEFAULT_NIM_BASE : string := "https://integrate.api.nvidia.com/v1".

(** The bindings of the Worker: [None] for a name that is not bound. *)
Record env : Type := {
  NIM_API_BASE : option string;
  NIM_API_KEY : option string
}.

(** What [fetch] is called with, and what it resolves to: the status
    and the body ([None] for no body) of the upstream response. *)
Record upstream_request : Type := {
  url : string;
  authorization : string;
  content : string
}.

Record upstream : Type := {
  up_status : Z;
  up_body : option (list (list Byte.byte))
}.

(** [nimResp.json().catch(() => null)] *)
Definition up_json (nimResp : upstream) : value :=
  default VNull
    (JSON.parse (Utf8.decode_body (concat (default [] (up_body nimResp))))).

Definition error_body (message : string) : value :=
  VObj [("error", VObj [("message", VStr message)])].

Definition bind {A B : Type} (x : exn + A) (f : A -> exn + B) : exn + B :=
  match x with
  | inl e => inl e
  | inr a => f a
  end.

Definition lift {A : Type} (x : option A) : exn + A :=
  match x with
  | Some a => inr a
  | None => inl TypeError
  end.

(** The branch of POST /v1/chat/completions.  [json] is what
    [request.json()] resolves to, [None] when it rejects.  [text()] of
    an upstream body that [json()] has read gives [''] through its
    [catch]. *)
Definition completions (E : env) (clock : nat -> Z)
           (fetch : upstream_request -> exn + upstream)
           (json : option value) : exn + response :=
  let nimBase :=
    match NIM_API_BASE E with
    | Some base => if truthy (VStr base) then base else DEFAULT_NIM_BASE
    | None => DEFAULT_NIM_BASE
    end in
  match NIM_API_KEY E with
  | None => inl (ReferenceError "NIM_API_KEY")
  | Some nimKey =>
      if negb (truthy (VStr nimKey)) then
        jsonResponse (error_body "NIM_API_KEY not configured") 500 []
      else
        let body := default (VObj []) json in
        bind (lift (get body "model")) (fun model0 =>
        let model := if defined model0 then model0 else VStr "" in
        let messages := default VUndefined (get body "messages") in
        let temperature := default VUndefined (get body "temperature") in
        let max_tokens := default VUndefined (get body "max_tokens") in
        let stream := default VUndefined (get body "stream") in
        bind (lift (resolve_value model)) (fun nimModel =>
        let nimRequestBody :=
          nimRequestBody_with nimModel messages temperature max_tokens stream in
        bind (fetch {| url := nimBase +:+ "/chat/completions";
                       authorization := "Bearer " +:+ nimKey;
                       content := JSON.stringified (request_json nimRequestBody) |})
             (fun nimResp =>
        if truthy stream then
          new_Response
            (match up_body nimResp with
             | Some chunks => Stream chunks
             | None => NoBody
             end)
            (up_status nimResp)
            (assign [("Content-Type", VStr "text/event-stream");
                     ("Cache-Control", VStr "no-cache, no-transform");
                     ("X-Accel-Buffering", VStr "no")]
                    corsHeaders)
        else
          let nimJson := up_json nimResp in
          if negb (truthy nimJson) then textResponse "" (up_status nimResp) []
          else
            bind (lift (openaiResponse clock model nimModel nimJson))
                 (fun openaiResponse =>
            jsonResponse openaiResponse (up_status nimResp) []))))
  end.

(** The routes inside the [try]. *)
Definition routes (E : env) (clock : nat -> Z)
           (fetch : upstream_request -> exn + upstream)
           (method path : string) (json : option value) : exn + response :=
  if (path =? "/") && (method =? "GET") then
    jsonResponse healthPayload 302 [("Location", VStr "/health")]
  else if (path =? "/health") && (method =? "GET") then
    jsonResponse healthPayload 200 []
  else if (path =? "/v1/health") && (method =? "GET") then
    new_Response NoBody 302 (assign corsHeaders [("Location", VStr "/health")])
  else if (path =? "/v1/models") && (method =? "GET") then
    jsonResponse (VObj [("object", VStr "list"); ("data", VArr (models clock))])
                 200 []
  else if (path =? "/v1/chat/completions") && (method =? "GET") then
    jsonResponse
      (VObj [("error",
              VObj [("message",
                     VStr "Method GET not allowed on /v1/chat/completions. Use POST with OpenAI-compatible payload.");
                    ("type", VStr "method_not_allowed");
                    ("code", VNum (Num.of_int 405))])])
      405 []
  else if (path =? "/v1/chat/completions") && (method =? "POST") then
    completions E clock fetch json
  else
    jsonResponse
      (VObj [("error",
              VObj [("message", VStr ("Endpoint " +:+ path +:+ " not found"));
                    ("type", VStr "invalid_request_error");
                    ("code", VNum (Num.of_int 404))])])
      404 [].

(** [handleRequest], for [method] the upper-cased method of the request
    and [path] the path of its URL.  [message e] is the message the
    runtime gives the error [e].  [inl] is a promise that rejects. *)
Definition handleRequest (message : exn -> string) (E : env) (clock : nat -> Z)
           (fetch : upstream_request -> exn + upstream)
           (method path : string) (json : option value) : exn + response :=
  if method =? "OPTIONS" then new_Response NoBody 204 corsHeaders
  else
    match routes E clock fetch method path json with
    | inr r => inr r
    | inl err =>
        jsonResponse
          (VObj [("error",
                  VObj [("message",
                         or (VStr (message err)) (VStr "Internal server error"))])])
          500 []
    end.

(** *** What the properties of the handler are stated with *)

(** The headers [hs] carry every header of [corsHeaders], with its
    value. *)
Definition has_cors (hs : list (string * value)) : Prop :=
  Forall (fun kv => own hs (fst kv) = Some (snd kv)) corsHeaders.

(** The requests that get as far as [fetch]: a POST to
    /v1/chat/completions, with [NIM_API_KEY] bound to a truthy string. *)
Definition may_fetch (E : env) (method path : string) : bool :=
  (method =? "POST") && (path =? "/v1/chat/completions")
  && from_option (fun key => truthy (VStr key)) false (NIM_API_KEY E).

(** [o] is what the callback can give for the choice [i]: the index and
    the finish reason of [i] with their defaults, and a message of a
    role and a content, nothing else. *)
Definition outbound (i o : value) : Prop :=
  exists role content,
    o = VObj [("index", nullish_or (default VUndefined (get i "index")) zero);
              ("message", VObj [("role", role); ("content", content)]);
              ("finish_reason",
               nullish_or (default VUndefined (get i "finish_reason")) VNull)].

End Worker.

(** ** server.js *)

Module Server.

Import JSString JS.

Definition MODEL_MAPPING : list (string * string) :=
  [ ("3.2 deepseek", "deepseek-ai/deepseek-v3.2");
    ("deepseek", "deepseek-ai/deepseek-v3.2");
    ("gpt-4", "deepseek-ai/deepseek-v3.2");
    ("gpt-3.5-turbo", "nvidia/llama-3.1-nemotron-ultra-253b-v1");
    ("gpt-4-turbo", "moonshotai/kimi-k2-thinking");
    ("gpt-4o", "deepseek-ai/deepseek-v3.1-terminus");
    ("claude-3-opus", "openai/gpt-oss-120b");
    ("claude-3-sonnet", "openai/gpt-oss-20b");
    ("deepseek-ai/deepseek-v3.1-terminus", "qwen/qwen3-next-80b-a3b-thinking") ].

Definition SHOW_REASONING : bool := true.
Definition ENABLE_THINKING_MODE : bool := true.

(** The fallback: the caller's own string, the deepseek model when the
    lower-cased string names it. *)
Definition fallback (model : string) : string :=
  if includes (toLowerCase model) "deepseek" then "deepseek-ai/deepseek-v3.2"
  else model.

(** [nimModel], for a [model] that is a string. *)
Definition resolve (model : string) : any :=
  let nimModel := lookup MODEL_MAPPING model in
  if negb (truthy_any nimModel) then Data (VStr (fallback model))
  else nimModel.

Record request : Type := {
  model : any;
  messages : value;
  temperature : value;
  max_tokens : value;
  stream : value;
  chat_template_kwargs : value
}.

(** [nimRequest], from the fields of [req.body]; a field the body does
    not have is [undefined]. *)
Definition nimRequest (model : string) (messages temperature max_tokens stream : value)
  : request :=
  {| model := resolve model;
     messages := messages;
     temperature := or temperature (VNum (Num.of_decimal false 6 (-1)));
     max_tokens := or max_tokens (VNum (Num.of_decimal false 8192 0));
     stream := or stream (VBool false);
     chat_template_kwargs :=
       if ENABLE_THINKING_MODE then VObj [("thinking", VBool true)]
       else VUndefined |}.

(** [openaiResponse.model] *)
Definition response_model (model : string) : any := Data (VStr model).

Definition THINK_OPEN : string := "<think>" +:+ nl.
Definition THINK_CLOSE : string := "</think>" +:+ nl +:+ nl.

(** The content of a choice of the non-streaming response, from its
    [message]; [None] is a TypeError. *)
Definition fullContent (message : value) : option value :=
  let fullContent := or (opt_get message "content") (VStr "") in
  let reasoning := opt_get message "reasoning_content" in
  if SHOW_REASONING && truthy reasoning then
    match plus (VStr THINK_OPEN) reasoning with
    | Some a =>
        match plus a (VStr (nl +:+ THINK_CLOSE)) with
        | Some b => plus b fullContent
        | None => None
        end
    | None => None
    end
  else Some fullContent.

(** *** The stream handler *)

(** The variables of the handler that outlive a chunk. *)
Record state : Type := {
  buffer : string;
  reasoningStarted : bool
}.

Definition initial : state := {| buffer := ""; reasoningStarted := false |}.

(** [data.choices?.[0]?.delta]; [None] is the TypeError of a [data]
    that is [null]. *)
Definition delta_of (data : value) : option value :=
  match get data "choices" with
  | Some choices => Some (opt_get (opt_get0 choices) "delta")
  | None => None
  end.

(** [v.name] replaced by [f v.name], for an own property. *)
Definition update (v : value) (name : string) (f : value -> value) : value :=
  match v with
  | VObj props =>
      match own props name with
      | Some x => VObj (default props (replace props name (f x)))
      | None => v
      end
  | _ => v
  end.

(** [v[0]] replaced by [f v[0]]. *)
Definition update0 (v : value) (f : value -> value) : value :=
  match v with
  | VArr (x :: rest) => VArr (f x :: rest)
  | _ => update v "0" f
  end.

(** [data.choices[0].delta] replaced by [f] of it. *)
Definition with_delta (f : value -> value) (data : value) : value :=
  update data "choices" (fun choices =>
    update0 choices (fun choice => update choice "delta" f)).

(** [delta.content = c].  On an array the new property is none of its
    elements and is never written out; on a string, a number or [true]
    the assignment does nothing. *)
Definition set_content (c : value) (delta : value) : value :=
  match delta with
  | VObj props => VObj (JS.set props "content" c)
  | _ => delta
  end.

(** [delete delta.reasoning_content] *)
Definition delete_reasoning (delta : value) : value :=
  match delta with
  | VObj props => VObj (remove props "reasoning_content")
  | _ => delta
  end.

(** The two conditionals that build [combinedContent]: the new
    [reasoningStarted], and the content, [None] when a conversion to
    string throws. *)
Definition merge (started : bool) (reasoning content : value)
  : bool * option value :=
  let '(started1, combined1) :=
    if truthy reasoning && negb started then
      match plus (VStr THINK_OPEN) reasoning with
      | Some c => (true, Some c)
      | None => (started, None)
      end
    else if truthy reasoning then (started, Some reasoning)
    else (started, Some (VStr "")) in
  match combined1 with
  | None => (started1, None)
  | Some combined =>
      if truthy content && started1 then
        match plus (VStr THINK_CLOSE) content with
        | Some closing =>
            match plus combined closing with
            | Some c => (false, Some c)
            | None => (started1, None)
            end
        | None => (started1, None)
        end
      else if truthy content then
        match plus combined content with
        | Some c => (started1, Some c)
        | None => (started1, None)
        end
      else (started1, Some combined)
  end.

(** The body of the [try] after [JSON.parse]: the new
    [reasoningStarted] and the event to write, [None] when it throws. *)
Definition transform (show : bool) (started : bool) (data : value)
  : bool * option value :=
  match delta_of data with
  | None => (started, None)
  | Some delta =>
      if truthy delta then
        let reasoning := default VUndefined (get delta "reasoning_content") in
        let content := default VUndefined (get delta "content") in
        if show then
          match merge started reasoning content with
          | (started', Some combinedContent) =>
              if truthy combinedContent then
                (started',
                 Some (with_delta
                         (fun d => delete_reasoning (set_content combinedContent d))
                         data))
              else (started', Some data)
          | (started', None) => (started', None)
          end
        else
          (started,
           Some (with_delta
                   (fun d => delete_reasoning
                               (set_content (if truthy content then content
                                             else VStr "") d))
                   data))
      else (started, Some data)
  end.

(** The callback of [lines.forEach]: the new [reasoningStarted] and
    the strings handed to [res.write]. *)
Definition handle_line (started : bool) (line : string) : bool * list string :=
  if startsWith line "data: " then
    if includes line "[DONE]" then (started, [line +:+ nl])
    else
      match JSON.parse (slice line 6) with
      | Some data =>
          match transform SHOW_REASONING started data with
          | (started', Some data') =>
              (started', ["data: " +:+ JSON.stringified data' +:+ nl +:+ nl])
          | (started', None) => (started', [line +:+ nl])
          end
      | None => (started, [line +:+ nl])
      end
  else (started, []).

Fixpoint forEach (started : bool) (lines : list string) : bool * list string :=
  match lines with
  | [] => (started, [])
  | line :: rest =>
      let '(started1, out1) := handle_line started line in
      let '(started2, out2) := forEach started1 rest in
      (started2, out1 ++ out2)
  end.

(** The handler of ['data'] once the chunk is a string. *)
Definition on_text (st : state) (text : string) : state * list string :=
  let buffer := buffer st +:+ text in
  let lines := split buffer LF in
  let buffer := default "" (last lines) in
  let lines := removelast lines in
  let '(started, out) := forEach (reasoningStarted st) lines in
  ({| buffer := buffer; reasoningStarted := started |}, out).

(** [response.data.on('data', chunk => ...)] *)
Definition on_data (st : state) (chunk : list Byte.byte) : state * list string :=
  on_text st (Utf8.Buffer_toString chunk).

(** The chunks of one upstream body in turn.  The handlers of ['end']
    and ['error'] call [res.end()] and write nothing. *)
Fixpoint on_chunks (st : state) (chunks : list (list Byte.byte))
  : state * list string :=
  match chunks with
  | [] => (st, [])
  | chunk :: rest =>
      let '(st1, out1) := on_data st chunk in
      let '(st2, out2) := on_chunks st1 rest in
      (st2, out1 ++ out2)
  end.

(** Everything written to the client for an upstream body. *)
Definition response_body (chunks : list (list Byte.byte)) : list string :=
  snd (on_chunks initial chunks).

(** What is written is a line of data. *)
Definition data_line (w : string) : Prop := startsWith w "data: " = true.

(** An event with one choice that carries [delta]. *)
Definition delta_event (delta : list (string * value)) : value :=
  VObj [("choices", VArr [VObj [("delta", VObj delta)]])].

(** *** The response to a request that does not stream *)

(** The callback of [response.data.choices.map]; [None] is a
    TypeError. *)
Definition choice_of (choice : value) : option value :=
  match get choice "message" with
  | None => None
  | Some message =>
      match fullContent message with
      | None => None
      | Some content =>
          match get message "role" with
          | None => None
          | Some role =>
              Some (VObj
                      [("index", default VUndefined (get choice "index"));
                       ("message", VObj [("role", role); ("content", content)]);
                       ("finish_reason",
                        default VUndefined (get choice "finish_reason"))])
          end
      end
  end.

(** [openaiResponse] for the [data] of the upstream response; [clock k]
    is what the call number [k] of [Date.now()] gives.  [None] is a
    TypeError: [data] is [null], its [choices] are no array, or the
    callback throws. *)
Definition openaiResponse (clock : nat -> Z) (model : string) (data : value)
  : option value :=
  match get data "choices" with
  | Some (VArr elems) =>
      match mapM choice_of elems with
      | Some choices =>
          Some (VObj
                  [("id", VStr ("chatcmpl-" +:+ Num.toString (Num.of_int (clock 0%nat))));
                   ("object", VStr "chat.completion");
                   ("created",
                    VNum (Num.floor (Num.div (Num.of_int (clock 1%nat))
                                             (Num.of_int 1000))));
                   ("model", any_json (response_model model));
                   ("choices", VArr choices);
                   ("usage", or (default VUndefined (get data "usage")) zero_usage)])
      | None => None
      end
  | _ => None
  end.

(** The entries of /v1/models for the keys [ids], the first of them made
    at the call number [k] of [Date.now()]. *)
Fixpoint models_from (clock : nat -> Z) (k : nat) (ids : list string) : list value :=
  match ids with
  | [] => []
  | m :: rest =>
      VObj [("id", VStr m); ("object", VStr "model");
            ("created", VNum (Num.of_int (clock k)));
            ("owned_by", VStr "nvidia-nim-proxy")]
      :: models_from clock (S k) rest
  end.

Definition models (clock : nat -> Z) : list value :=
  models_from clock 0 (keys MODEL_MAPPING).

(** The content of a message with reasoning [r] and content [c], both
    text or missing, as the non-streaming responses write it. *)
Definition wrapped (r c : option string) : string :=
  if default "" r =? "" then default "" c
  else THINK_OPEN +:+ default "" r +:+ nl +:+ THINK_CLOSE +:+ default "" c.

(** The line of data an outgoing write is for: the line itself and a
    line feed, or an event made a line of data. *)
Definition write_of (line w : string) : Prop :=
  w = line +:+ nl
  \/ exists data, w = "data: " +:+ JSON.stringified data +:+ nl +:+ nl.

Definition is_data (line : string) : bool := startsWith line "data: ".

(** [nimModel] for any [model] of the body: the table is read under the
    key the model converts to, and only a string has [toLowerCase].
    [None] is a TypeError. *)
Definition resolve_value (model : value) : option any :=
  match toString model with
  | None => None
  | Some key =>
      let nimModel := lookup MODEL_MAPPING key in
      if negb (truthy_any nimModel) then
        match model with
        | VStr s => Some (Data (VStr (fallback s)))
        | _ => None
        end
      else Some nimModel
  end.

(** [o] is what the callback can give for the choice [i]: the index and
    the finish reason of [i], and a message of a role and a content,
    nothing else. *)
Definition outbound (i o : value) : Prop :=
  exists role content,
    o = VObj [("index", default VUndefined (get i "index"));
              ("message", VObj [("role", role); ("content", content)]);
              ("finish_reason", default VUndefined (get i "finish_reason"))].

End Server.

(** ** The /api/chat handler

    The handler copies [req.body.messages] with a spread and prepends
    the system message to the copy.  Arrays are objects of the store:
    two names may point to one array, so the store is modelled. *)

Module Chat.

Import JS.

Definition ENABLE_THINKING_MODE : bool := true.

Definition loc : Type := positive.

(** The arrays of the store. *)
Abbreviation store := (gmap loc (list value)).

Definition system_message : value :=
  VObj [("content", VStr "detailed thinking on"); ("role", VStr "system")].

(** [[...a]]: a new array with the elements of [a]; [None] is the
    TypeError of spreading what is no array. *)
Definition spread (h : store) (a : loc) : option (store * loc) :=
  match h !! a with
  | Some elems => let l := fresh (dom h) in Some (<[l := elems]> h, l)
  | None => None
  end.

(** [a.unshift(x)] *)
Definition unshift (h : store) (a : loc) (x : value) : store :=
  alter (cons x) a h.

(** The handler up to its call of [nimRequest]: the store, and the
    array handed to [nimRequest]. *)
Definition handler (h : store) (incomingMessages : loc) : option (store * loc) :=
  match spread h incomingMessages with
  | Some (h1, nimMessages) =>
      let h2 :=
        if ENABLE_THINKING_MODE then unshift h1 nimMessages system_message
        else h1 in
      Some (h2, nimMessages)
  | None => None
  end.

End Chat.

(** * Properties *)

(** ** Strings and lines *)

Section StringFacts.
Import JSString.

Lemma append_nil (b : string) : "" +:+ b = b.
Proof. reflexivity. Qed.

Lemma append_cons (x : ascii) (a b : string) :
  String x a +:+ b = String x (a +:+ b).
Proof. reflexivity. Qed.

Lemma append_assoc (a b c : string) : (a +:+ b) +:+ c = a +:+ (b +:+ c).
Proof.
  induction a as [|x a IH]; [reflexivity |].
  rewrite !append_cons. now rewrite IH.
Qed.

Lemma append_empty_r (a : string) : a +:+ "" = a.
Proof.
  induction a as [|x a IH]; [reflexivity |].
  rewrite append_cons. now rewrite IH.
Qed.

Lemma prefix_empty (s : string) : String.prefix "" s = true.
Proof. destruct s; reflexivity. Qed.

Lemma startsWith_append (s p t : string) :
  startsWith s p = true -> startsWith (s +:+ t) p = true.
Proof.
  unfold startsWith. revert s.
  induction p as [|a p IH]; intros s H.
  - apply prefix_empty.
  - destruct s as [|b s]; simpl in H; [discriminate |].
    rewrite append_cons. simpl.
    destruct (ascii_dec a b); [auto | discriminate].
Qed.

Lemma startsWith_literal (p t : string) : startsWith (p +:+ t) p = true.
Proof.
  unfold startsWith. induction p as [|a p IH].
  - apply prefix_empty.
  - rewrite append_cons. simpl.
    destruct (ascii_dec a a); [assumption | congruence].
Qed.

Lemma split_nonempty (s : string) (sep : ascii) : split s sep <> [].
Proof.
  destruct s as [|c t]; simpl; [discriminate |].
  destruct (Ascii.eqb c sep); [discriminate |].
  destruct (split t sep); discriminate.
Qed.

(** Splitting a concatenation: the last piece of the first part goes on
    with the second part. *)
Lemma split_append (s t : string) (sep : ascii) :
  split (s +:+ t) sep
  = removelast (split s sep) ++ split (default "" (last (split s sep)) +:+ t) sep.
Proof.
  induction s as [|c s IH]; [reflexivity |].
  rewrite append_cons. simpl split at 1. rewrite IH.
  pose proof (split_nonempty s sep) as Hne.
  simpl (split (String c s) sep).
  destruct (Ascii.eqb c sep) eqn:E.
  - destruct (split s sep) as [|h r] eqn:Es; [congruence |].
    reflexivity.
  - destruct (split s sep) as [|h r] eqn:Es; [congruence |].
    destruct r as [|h' r'].
    + simpl. now rewrite E.
    + reflexivity.
Qed.

End StringFacts.

(** ** The stream handler *)

Section StreamFacts.
Import JSString JS Server.

Lemma forEach_app (started : bool) (l1 l2 : list string) :
  forEach started (l1 ++ l2)
  = (fst (forEach (fst (forEach started l1)) l2),
     snd (forEach started l1) ++ snd (forEach (fst (forEach started l1)) l2)).
Proof.
  revert started. induction l1 as [|x l1 IH]; intros started.
  - cbn [forEach app fst snd]. now destruct (forEach started l2).
  - cbn [forEach app]. destruct (handle_line started x) as [s1 o1].
    rewrite IH.
    destruct (forEach s1 l1) as [s2 o2]. cbn [fst snd].
    now rewrite app_assoc.
Qed.

Lemma forEach_cons (started : bool) (line : string) (rest : list string) :
  forEach started (line :: rest)
  = (fst (forEach (fst (handle_line started line)) rest),
     snd (handle_line started line)
     ++ snd (forEach (fst (handle_line started line)) rest)).
Proof.
  cbn [forEach]. destruct (handle_line started line) as [s1 o1].
  cbn [fst snd]. now destruct (forEach s1 rest).
Qed.

(** Text that arrives in two pieces is handled as the text in one piece. *)
Lemma on_text_app (st : state) (a b : string) :
  on_text st (a +:+ b)
  = (fst (on_text (fst (on_text st a)) b),
     snd (on_text st a) ++ snd (on_text (fst (on_text st a)) b)).
Proof.
  unfold on_text. rewrite <- append_assoc, split_append.
  set (L := split (buffer st +:+ a) LF).
  destruct (forEach (reasoningStarted st) (removelast L)) as [s1 o1] eqn:E1.
  cbn [fst snd buffer reasoningStarted].
  pose proof (split_nonempty (default "" (last L) +:+ b) LF) as Hne.
  destruct (split (default "" (last L) +:+ b) LF) as [|x l]; [congruence |].
  rewrite (removelast_app _ Hne), last_app_cons, forEach_app, E1.
  cbn [fst snd].
  now destruct (forEach s1 (removelast (x :: l))).
Qed.

Lemma handle_line_not_data (started : bool) (line : string) :
  startsWith line "data: " = false -> handle_line started line = (started, []).
Proof. intros H. unfold handle_line. now rewrite H. Qed.

Lemma handle_line_unparsed (started : bool) (line : string) :
  startsWith line "data: " = true ->
  JSON.parse (slice line 6) = None ->
  handle_line started line = (started, [line +:+ nl]).
Proof.
  intros H P. unfold handle_line. rewrite H, P.
  now destruct (includes line "[DONE]").
Qed.

Lemma handle_line_writes (started : bool) (line : string) :
  Forall data_line (snd (handle_line started line)).
Proof.
  unfold handle_line.
  destruct (startsWith line "data: ") eqn:H; [| constructor].
  assert (data_line (line +:+ nl)) as Hraw by now apply startsWith_append.
  destruct (includes line "[DONE]"); [now repeat constructor |].
  destruct (JSON.parse (slice line 6)) as [data|]; [| now repeat constructor].
  destruct (transform SHOW_REASONING started data) as [s' [data'|]];
    [| now repeat constructor].
  repeat constructor. apply startsWith_literal.
Qed.

Lemma forEach_writes (started : bool) (lines : list string) :
  Forall data_line (snd (forEach started lines)).
Proof.
  revert started. induction lines as [|l lines IH]; intros started.
  - constructor.
  - rewrite forEach_cons. cbn [snd]. apply Forall_app. split.
    + apply handle_line_writes.
    + apply IH.
Qed.

Lemma on_data_writes (st : state) (chunk : list Byte.byte) :
  Forall data_line (snd (on_data st chunk)).
Proof.
  unfold on_data, on_text.
  pose proof (forEach_writes (reasoningStarted st)
    (removelast (split (buffer st +:+ Utf8.Buffer_toString chunk) LF))) as H.
  now destruct (forEach _ _).
Qed.

Lemma plus_strings (a b : string) : plus (VStr a) (VStr b) = Some (VStr (a +:+ b)).
Proof. reflexivity. Qed.

(** With nothing pending the decoder has forgotten the bounds and the
    bytes seen. *)
Lemma decode_from_fresh (lo hi : N) (seen : string) (bytes : list Byte.byte) :
  Utf8.decode_from 0 lo hi seen bytes = Utf8.decode_from 0 128 191 "" bytes.
Proof. destruct bytes; reflexivity. Qed.

(** Bytes that end between two characters are decoded on their own. *)
Lemma decode_from_app (a b : list Byte.byte) :
  forall (needed : nat) (lo hi : N) (seen : string),
    Utf8.pending needed lo hi a = O ->
    Utf8.decode_from needed lo hi seen (a ++ b)
    = Utf8.decode_from needed lo hi seen a +:+ Utf8.decode_from 0 128 191 "" b.
Proof.
  induction a as [|x a IH]; intros needed lo hi seen H.
  - cbn [Utf8.pending] in H. subst needed.
    cbn [app Utf8.decode_from]. rewrite append_nil. apply decode_from_fresh.
  - cbn [app Utf8.decode_from Utf8.pending] in *.
    destruct needed as [|k].
    + destruct (Byte.to_N x <? 128)%N.
      * rewrite (IH _ _ _ _ H). now rewrite append_cons.
      * destruct (Utf8.lead (Byte.to_N x)) as [[[k l] h]|].
        -- apply (IH _ _ _ _ H).
        -- rewrite (IH _ _ _ _ H). now rewrite append_assoc.
    + destruct ((lo <=? Byte.to_N x)%N && (Byte.to_N x <=? hi)%N).
      * destruct k as [|k'].
        -- rewrite (IH 0%nat 128%N 191%N "" H).
           rewrite append_assoc. now rewrite append_cons.
        -- apply (IH _ _ _ _ H).
      * destruct (Byte.to_N x <? 128)%N.
        -- rewrite (IH _ _ _ _ H). rewrite append_assoc. now rewrite append_cons.
        -- destruct (Utf8.lead (Byte.to_N x)) as [[[k' l] h]|].
           ++ rewrite (IH _ _ _ _ H). now rewrite append_assoc.
           ++ rewrite (IH _ _ _ _ H). now rewrite !append_assoc.
Qed.

Lemma Buffer_toString_app (a b : list Byte.byte) :
  Utf8.at_boundary a ->
  Utf8.Buffer_toString (a ++ b)
  = Utf8.Buffer_toString a +:+ Utf8.Buffer_toString b.
Proof. intros H. now apply decode_from_app. Qed.

Lemma on_chunks_two (st : state) (a b : list Byte.byte) :
  Utf8.Buffer_toString (a ++ b)
  = Utf8.Buffer_toString a +:+ Utf8.Buffer_toString b ->
  on_chunks st [a ++ b] = on_chunks st [a; b].
Proof.
  intros H. cbn [on_chunks]. unfold on_data. rewrite H, on_text_app.
  destruct (on_text st (Utf8.Buffer_toString a)) as [st1 o1]. cbn [fst snd].
  destruct (on_text st1 (Utf8.Buffer_toString b)) as [st2 o2]. cbn [fst snd].
  now rewrite !app_nil_r.
Qed.

(** C1: the claim that no reasoning block is left open past the end of
    the stream fails on the handler.  An upstream body whose only delta
    is reasoning, followed by the terminator, makes the handler write the
    opening tag and nothing that closes it; [reasoningStarted] is still
    set when the body ends, and the handlers of the end write nothing.
    The non-streaming path closes the block it opens for the same
    message. *)
Theorem reasoning_block_left_open :
  on_chunks initial
    [Utf8.bytes (wire "data: {'choices':[{'delta':{'reasoning_content':'a'}}]}||data: [DONE]||")]
  = ({| buffer := ""; reasoningStarted := true |},
     [wire "data: {'choices':[{'delta':{'content':'<think>\na'}}]}||";
      wire "data: [DONE]|"])
  /\ fullContent (VObj [("reasoning_content", VStr "a")])
     = Some (VStr (wire "<think>|a|</think>||")).
Proof. split; vm_compute; reflexivity. Qed.

(** C2, as stated, fails: an event that follows the terminator in the
    upstream body is transformed and written like any other. *)
Lemma event_after_DONE_is_emitted :
  response_body
    [Utf8.bytes (wire "data: [DONE]||data: {'choices':[{'delta':{'content':'late'}}]}||")]
  = [wire "data: [DONE]|";
     wire "data: {'choices':[{'delta':{'content':'late'}}]}||"].
Proof. vm_compute. reflexivity. Qed.

(** C2, amended: the terminator line is written as it came, followed by
    one line feed, and it changes nothing else: the lines after it are
    handled from the same state, and what they produce is written after
    it. *)
Theorem DONE_line_forwarded (started : bool) (rest : list string) :
  forEach started ("data: [DONE]" :: rest)
  = (fst (forEach started rest),
     ("data: [DONE]" +:+ nl) :: snd (forEach started rest)).
Proof. rewrite forEach_cons. reflexivity. Qed.

(** C5: with reasoning shown and no block open, the deltas
    [{reasoning_content: "a"}], [{reasoning_content: "b"}] and
    [{content: "c"}] come out with the contents ["<think>\na"], ["b"]
    and ["</think>\n\nc"], and no block is open after the third; the
    three lines of data are written accordingly. *)
Theorem reasoning_toggle_sequence :
  transform true false (delta_event [("reasoning_content", VStr "a")])
  = (true, Some (delta_event [("content", VStr (wire "<think>|a"))]))
  /\ transform true true (delta_event [("reasoning_content", VStr "b")])
     = (true, Some (delta_event [("content", VStr "b")]))
  /\ transform true true (delta_event [("content", VStr "c")])
     = (false, Some (delta_event [("content", VStr (wire "</think>||c"))]))
  /\ forEach false
       [wire "data: {'choices':[{'delta':{'reasoning_content':'a'}}]}";
        wire "data: {'choices':[{'delta':{'reasoning_content':'b'}}]}";
        wire "data: {'choices':[{'delta':{'content':'c'}}]}"]
     = (false,
        [wire "data: {'choices':[{'delta':{'content':'<think>\na'}}]}||";
         wire "data: {'choices':[{'delta':{'content':'b'}}]}||";
         wire "data: {'choices':[{'delta':{'content':'</think>\n\nc'}}]}||"]).
Proof. repeat split; vm_compute; reflexivity. Qed.

(** C6: the claim fails for an event with a character of more than one
    byte.  The bytes C3 A9 are one character when they arrive in one
    chunk; when the chunk boundary falls between them each chunk is
    decoded on its own, and the event written carries two replacement
    characters instead. *)
Theorem split_inside_character_changes_event :
  let head := Utf8.bytes (wire "data: {'choices':[{'delta':{'content':'") in
  let tail := Utf8.bytes (wire "'}}]}||") in
  response_body [head ++ [Byte.xc3; Byte.xa9] ++ tail]
  = [wire "data: {'choices':[{'delta':{'content':'" +:+ Utf8.encode 233
     +:+ wire "'}}]}||"]
  /\ response_body [head ++ [Byte.xc3]; [Byte.xa9] ++ tail]
     = [wire "data: {'choices':[{'delta':{'content':'"
        +:+ Utf8.REPLACEMENT +:+ Utf8.REPLACEMENT +:+ wire "'}}]}||"].
Proof. split; vm_compute; reflexivity. Qed.

(** C7: a line of data whose payload does not parse is written as it
    came, followed by one line feed; the state is as before and the
    lines after it are handled as if it had not been there. *)
Theorem malformed_line_forwarded (started : bool) (line : string)
        (rest : list string) :
  startsWith line "data: " = true ->
  JSON.parse (slice line 6) = None ->
  forEach started (line :: rest)
  = (fst (forEach started rest), (line +:+ nl) :: snd (forEach started rest)).
Proof.
  intros H P. rewrite forEach_cons, (handle_line_unparsed _ _ H P). reflexivity.
Qed.

Lemma malformed_line_forwarded_witness :
  forEach false ["data: {oops"; wire "data: {'choices':[{'delta':{'content':'x'}}]}"]
  = (false,
     ["data: {oops" +:+ nl; wire "data: {'choices':[{'delta':{'content':'x'}}]}||"]).
Proof.
  rewrite (malformed_line_forwarded false "data: {oops"); [| reflexivity | reflexivity].
  vm_compute. reflexivity.
Defined.

(** C10: a line that does not start with [data: ] writes nothing and
    leaves the state as it was, so the lines after it are handled as if
    it had not been there; and everything a chunk makes the handler
    write starts with [data: ]. *)
Theorem non_data_line_dropped (started : bool) (line : string) :
  startsWith line "data: " = false ->
  handle_line started line = (started, [])
  /\ (forall rest, forEach started (line :: rest) = forEach started rest)
  /\ (forall st chunk, Forall data_line (snd (on_data st chunk))).
Proof.
  intros H. split; [| split].
  - now apply handle_line_not_data.
  - intros rest. rewrite forEach_cons, (handle_line_not_data _ _ H).
    cbn [fst snd app]. now destruct (forEach started rest).
  - apply on_data_writes.
Qed.

Lemma non_data_line_dropped_witness :
  handle_line true "event: ping" = (true, [])
  /\ handle_line true "" = (true, [])
  /\ handle_line true ": keep-alive" = (true, []).
Proof.
  split; [| split].
  - apply (non_data_line_dropped true "event: ping"). reflexivity.
  - apply (non_data_line_dropped true ""). reflexivity.
  - apply (non_data_line_dropped true ": keep-alive"). reflexivity.
Defined.

(** Text in two pieces: the lines written for the two pieces, one after
    the other, are the lines written for the whole text, and the state
    left is the same. *)
Theorem text_in_two_pieces (st : state) (a b : string) :
  on_text st (a +:+ b)
  = (fst (on_text (fst (on_text st a)) b),
     snd (on_text st a) ++ snd (on_text (fst (on_text st a)) b)).
Proof. apply on_text_app. Qed.

(** A chunk boundary that cuts no character changes neither what is
    written nor the state left. *)
Theorem chunk_boundary_between_characters (st : state) (a b : list Byte.byte) :
  Utf8.at_boundary a ->
  on_chunks st [a ++ b] = on_chunks st [a; b].
Proof. intros H. apply on_chunks_two. now apply Buffer_toString_app. Qed.

Lemma chunk_boundary_between_characters_witness :
  let head :=
    Utf8.bytes (wire "data: {'choices':[{'delta':{'content':'")
    ++ [Byte.xc3; Byte.xa9] in
  let tail := Utf8.bytes (wire "'}}]}||") in
  on_chunks initial [head ++ tail] = on_chunks initial [head; tail].
Proof.
  intros head tail.
  apply (chunk_boundary_between_characters initial head tail).
  reflexivity.
Defined.

(** A line of data that contains [[DONE]] anywhere, in the text of a
    delta too, is written as it came and is not transformed. *)
Theorem line_containing_DONE_forwarded (started : bool) (line : string) :
  startsWith line "data: " = true ->
  includes line "[DONE]" = true ->
  handle_line started line = (started, [line +:+ nl]).
Proof. intros H D. unfold handle_line. now rewrite H, D. Qed.

Lemma line_containing_DONE_forwarded_witness :
  handle_line true
    (wire "data: {'choices':[{'delta':{'reasoning_content':'r','content':'[DONE]'}}]}")
  = (true,
     [wire "data: {'choices':[{'delta':{'reasoning_content':'r','content':'[DONE]'}}]}|"]).
Proof.
  apply (line_containing_DONE_forwarded true
           (wire "data: {'choices':[{'delta':{'reasoning_content':'r','content':'[DONE]'}}]}"));
    reflexivity.
Defined.

(** The merge on fields that hold text or are missing.  A block is
    opened exactly when there is reasoning and none is open; it is closed
    exactly when there is content and one is open, by then; and one is
    open afterwards exactly when one was open by then and there is no
    content. *)
Theorem merge_of_text (started : bool) (reasoning content : option string) :
  let r := default "" reasoning in
  let c := default "" content in
  let opening := negb (r =? "") && negb started in
  let open := started || negb (r =? "") in
  let closing := negb (c =? "") && open in
  merge started (field reasoning) (field content)
  = (open && (c =? ""),
     Some (VStr ((if opening then THINK_OPEN else "") +:+ r
                 +:+ (if closing then THINK_CLOSE else "") +:+ c))).
Proof.
  destruct reasoning as [r|], content as [c|]; cbv zeta;
    cbn [field from_option default id]; unfold merge; cbn [truthy];
    try destruct (r =? "") eqn:Er; try destruct (c =? "") eqn:Ec;
    destruct started; cbn [negb andb orb]; rewrite ?plus_strings;
    try apply String.eqb_eq in Er; try apply String.eqb_eq in Ec; subst;
    rewrite ?append_nil, ?append_empty_r, ?append_assoc; reflexivity.
Qed.

End StreamFacts.

(** ** Model resolution and the request *)

Section ResolverFacts.
Import JSString JS.

Lemma or_empty (model : string) :
  (if truthy (VStr model) then model else "") = model.
Proof.
  cbn [truthy]. destruct (model =? "") eqn:E; [| reflexivity].
  apply String.eqb_eq in E. now subst.
Qed.

Lemma Worker_resolve_mapped (model id : string) :
  assoc Worker.MODEL_MAPPING model = Some id ->
  Worker.resolve model = Data (VStr id).
Proof.
  intros H. unfold Worker.resolve, lookup. rewrite H.
  unfold Worker.MODEL_MAPPING in H. cbn [assoc] in H.
  repeat match type of H with
         | (if ?b then _ else _) = _ => destruct b
         end; now inversion H.
Qed.

Lemma Worker_resolve_unmapped (model : string) :
  assoc Worker.MODEL_MAPPING model = None ->
  inherited model = false ->
  Worker.resolve model = Data (VStr (Worker.fallback (toLowerCase model))).
Proof.
  intros H I. unfold Worker.resolve, lookup. rewrite H, I.
  cbv zeta. now rewrite or_empty.
Qed.

Lemma Server_resolve_mapped (model id : string) :
  assoc Server.MODEL_MAPPING model = Some id ->
  Server.resolve model = Data (VStr id).
Proof.
  intros H. unfold Server.resolve, lookup. rewrite H.
  unfold Server.MODEL_MAPPING in H. cbn [assoc] in H.
  repeat match type of H with
         | (if ?b then _ else _) = _ => destruct b
         end; now inversion H.
Qed.

Lemma Server_resolve_unmapped (model : string) :
  assoc Server.MODEL_MAPPING model = None ->
  inherited model = false ->
  Server.resolve model = Data (VStr (Server.fallback model)).
Proof.
  intros H I. unfold Server.resolve, lookup. now rewrite H, I.
Qed.

(** C3: the claim fails for a model string that names a property every
    object inherits.  ["constructor"] is no key of either table, yet
    reading it from the table gives the inherited function, which is
    truthy: neither handler goes down its fallback, and the model of the
    upstream request is that function, not a string. *)
Theorem inherited_name_resolves_to_builtin :
  assoc Worker.MODEL_MAPPING "constructor" = None
  /\ Worker.resolve "constructor" = Native "constructor"
  /\ Worker.fallback (toLowerCase "constructor") = "meta/llama-3.1-8b-instruct"
  /\ assoc Server.MODEL_MAPPING "constructor" = None
  /\ Server.resolve "constructor" = Native "constructor"
  /\ Server.fallback "constructor" = "constructor".
Proof. repeat split. Qed.

(** For every model string that is no inherited name: a key of the
    table resolves to the value the table gives it, and any other string
    to what the fallback of the deployment gives. *)
Theorem resolve_table_or_fallback (model : string) :
  inherited model = false ->
  Worker.resolve model
  = Data (VStr (default (Worker.fallback (toLowerCase model))
                        (assoc Worker.MODEL_MAPPING model)))
  /\ Server.resolve model
     = Data (VStr (default (Server.fallback model)
                           (assoc Server.MODEL_MAPPING model))).
Proof.
  intros I. split.
  - destruct (assoc Worker.MODEL_MAPPING model) as [id|] eqn:H.
    + now apply Worker_resolve_mapped.
    + now apply Worker_resolve_unmapped.
  - destruct (assoc Server.MODEL_MAPPING model) as [id|] eqn:H.
    + now apply Server_resolve_mapped.
    + now apply Server_resolve_unmapped.
Qed.

Lemma resolve_table_or_fallback_witness :
  Worker.resolve "my-Claude-2"
  = Data (VStr (default (Worker.fallback (toLowerCase "my-Claude-2"))
                        (assoc Worker.MODEL_MAPPING "my-Claude-2")))
  /\ Server.resolve "my-Claude-2"
     = Data (VStr (default (Server.fallback "my-Claude-2")
                           (assoc Server.MODEL_MAPPING "my-Claude-2"))).
Proof. apply (resolve_table_or_fallback "my-Claude-2"). reflexivity. Defined.

(** C4: the claim fails in server.js for a temperature or a max_tokens
    of 0.  The request is built with [||], which takes the default for
    every falsy value: a temperature of 0 goes upstream as 0.6, and a
    max_tokens of 0 as 8192. *)
Theorem Server_zero_is_defaulted (model : string) (messages stream : value) :
  Server.temperature (Server.nimRequest model messages zero zero stream)
  = VNum (Num.of_decimal false 6 (-1))
  /\ Server.max_tokens (Server.nimRequest model messages zero zero stream)
     = VNum (Num.of_decimal false 8192 0).
Proof. split; reflexivity. Qed.

(** worker.js takes the defaults, 0.6 and 9024, exactly for the fields
    that are undefined: every other value, 0 and [null] too, goes
    upstream as it came. *)
Theorem Worker_defaults_only_undefined (model : string)
        (messages temperature max_tokens stream : value) :
  Worker.temperature
    (Worker.nimRequestBody model messages temperature max_tokens stream)
  = match temperature with
    | VUndefined => VNum (Num.of_decimal false 6 (-1))
    | _ => temperature
    end
  /\ Worker.max_tokens
       (Worker.nimRequestBody model messages temperature max_tokens stream)
     = match max_tokens with
       | VUndefined => VNum (Num.of_decimal false 9024 0)
       | _ => max_tokens
       end.
Proof. split; [now destruct temperature | now destruct max_tokens]. Qed.

(** C8, as stated, fails in worker.js for the empty model string: the
    response carries the model of the upstream response, and the resolved
    model when the upstream names none. *)
Lemma Worker_empty_model_not_echoed :
  Worker.response_model "" (VStr "meta/llama-3.1-8b-instruct")
  = Data (VStr "meta/llama-3.1-8b-instruct")
  /\ Worker.response_model "" VUndefined
     = Data (VStr "meta/llama-3.1-8b-instruct").
Proof. split; reflexivity. Qed.

(** C8, amended: server.js answers with the caller's model string,
    whatever it is; worker.js does so for every string but the empty one,
    for which it takes the model of the upstream response if that is
    truthy and the resolved model otherwise. *)
Theorem response_model_echo (model : string) (nimJson_model : value) :
  Server.response_model model = Data (VStr model)
  /\ Worker.response_model model nimJson_model
     = if model =? "" then or_any (Data nimJson_model) (Worker.resolve "")
       else Data (VStr model).
Proof.
  split; [reflexivity |].
  unfold Worker.response_model, or_any at 2. cbn [truthy_any truthy].
  destruct (model =? "") eqn:E; cbn [negb].
  - apply String.eqb_eq in E. now subst.
  - unfold or_any. cbn [truthy_any truthy]. now rewrite E.
Qed.

End ResolverFacts.

(** ** The copy of the messages *)

Section ChatFacts.
Import JS Chat.

(** C9: when [req.body.messages] is an array, the handler returns; the
    array still has the elements it had, in every other array of the
    store too; the array handed on is a new one, with the system message
    before those elements. *)
Theorem messages_copied_not_mutated (h : store) (incomingMessages : loc)
        (elems : list value) :
  h !! incomingMessages = Some elems ->
  exists (h' : store) (nimMessages : loc),
    handler h incomingMessages = Some (h', nimMessages)
    /\ h' !! incomingMessages = Some elems
    /\ h' !! nimMessages = Some (system_message :: elems)
    /\ nimMessages <> incomingMessages
    /\ (forall a, is_Some (h !! a) -> h' !! a = h !! a).
Proof.
  intros H. unfold handler, spread. rewrite H. cbn [ENABLE_THINKING_MODE].
  set (l := fresh (dom h)).
  assert (h !! l = None) as Hl.
  { apply not_elem_of_dom. apply is_fresh. }
  assert (l <> incomingMessages) as Hne by congruence.
  exists (unshift (<[l:=elems]> h) l system_message), l.
  unfold unshift. repeat split.
  - rewrite lookup_alter_ne by done. now rewrite lookup_insert_ne.
  - rewrite lookup_alter_eq. now rewrite lookup_insert_eq.
  - exact Hne.
  - intros a [x Ha].
    assert (l <> a) by congruence.
    rewrite lookup_alter_ne by done. now rewrite lookup_insert_ne.
Qed.

Lemma messages_copied_not_mutated_witness :
  let user := VObj [("role", VStr "user"); ("content", VStr "hi")] in
  let h : store := {[ 1%positive := [user] ]} in
  exists (h' : store) (nimMessages : loc),
    handler h 1%positive = Some (h', nimMessages)
    /\ h' !! 1%positive = Some [user]
    /\ h' !! nimMessages = Some [system_message; user]
    /\ nimMessages <> 1%positive
    /\ (forall a, is_Some (h !! a) -> h' !! a = h !! a).
Proof.
  intros user h.
  apply (messages_copied_not_mutated h 1%positive). reflexivity.
Defined.

End ChatFacts.

(** ** The stream handler, line by line and chunk by chunk *)

Section MoreStreamFacts.
Import JSString JS Server.

(** A line of data makes exactly one write. *)
Lemma handle_line_data (started : bool) (line : string) :
  startsWith line "data: " = true ->
  exists w, snd (handle_line started line) = [w] /\ write_of line w.
Proof.
  intros H. unfold handle_line. rewrite H.
  destruct (includes line "[DONE]"); [eexists; split; [reflexivity | now left] |].
  destruct (JSON.parse (slice line 6)) as [data|];
    [| eexists; split; [reflexivity | now left]].
  destruct (transform SHOW_REASONING started data) as [s' [data'|]].
  - eexists; split; [reflexivity | right; now exists data'].
  - eexists; split; [reflexivity | now left].
Qed.

(** The writes of a run of lines are, in order, one for each line that
    starts with [data: ], and none for the others: the line itself and
    a line feed, or an event made a line of data. *)
Theorem one_write_per_data_line (started : bool) (lines : list string) :
  Forall2 write_of (List.filter is_data lines) (snd (forEach started lines)).
Proof.
  revert started. induction lines as [|l lines IH]; intros started.
  - constructor.
  - rewrite forEach_cons. cbn [snd List.filter]. unfold is_data at 1.
    destruct (startsWith l "data: ") eqn:H.
    + destruct (handle_line_data started l H) as [w [Hw Hof]].
      rewrite Hw. cbn [app]. constructor; [exact Hof | apply IH].
    + rewrite (handle_line_not_data _ _ H). cbn [fst snd app]. apply IH.
Qed.

Lemma includes_nl_cons (c : ascii) (s : string) :
  includes (String c s) nl = Ascii.eqb c LF || includes s nl.
Proof.
  cbn [includes]. f_equal. unfold nl. cbn [String.prefix].
  destruct (ascii_dec LF c) as [E|E].
  - subst c. rewrite Ascii.eqb_refl. apply prefix_empty.
  - symmetry. apply Ascii.eqb_neq. congruence.
Qed.

Lemma includes_nl_app (a b : string) :
  includes (a +:+ b) nl = includes a nl || includes b nl.
Proof.
  induction a as [|c a IH].
  - rewrite append_nil. reflexivity.
  - rewrite append_cons, !includes_nl_cons, IH. now rewrite orb_assoc.
Qed.

(** No piece of a split holds the separator. *)
Lemma split_pieces (s : string) :
  Forall (fun p => includes p nl = false) (split s LF).
Proof.
  induction s as [|c s IH]; [repeat constructor |].
  cbn [split]. destruct (Ascii.eqb c LF) eqn:E.
  - constructor; [reflexivity | exact IH].
  - destruct (split s LF) as [|h r]; [repeat constructor; now rewrite includes_nl_cons, E |].
    inversion IH; subst. constructor; [| assumption].
    now rewrite includes_nl_cons, E.
Qed.

Lemma split_without (s : string) : includes s nl = false -> split s LF = [s].
Proof.
  induction s as [|c s IH]; [reflexivity |].
  rewrite includes_nl_cons. intros H. apply orb_false_iff in H as [E H].
  cbn [split]. rewrite E, (IH H). reflexivity.
Qed.

Lemma on_text_buffer (st : state) (text : string) :
  includes (buffer (fst (on_text st text))) nl = false.
Proof.
  unfold on_text.
  pose proof (split_pieces (buffer st +:+ text)) as F.
  destruct (forEach _ _) as [s o]. cbn [fst buffer].
  destruct (last (split (buffer st +:+ text) LF)) as [x|] eqn:L; [| reflexivity].
  cbn [default]. apply last_Some in L as [l' L]. rewrite L in F.
  apply Forall_app in F as [_ F]. now inversion F.
Qed.

(** Whatever the state and the chunk, the buffer kept after the chunk
    holds no line feed: every complete line has been handled. *)
Theorem buffer_never_holds_line_feed (st : state) (chunk : list Byte.byte) :
  includes (buffer (fst (on_data st chunk))) nl = false.
Proof. apply on_text_buffer. Qed.

Lemma on_text_without (st : state) (text : string) :
  includes (buffer st +:+ text) nl = false ->
  on_text st text
  = ({| buffer := buffer st +:+ text; reasoningStarted := reasoningStarted st |}, []).
Proof.
  intros H. unfold on_text. rewrite (split_without _ H). reflexivity.
Qed.

(** The chunks in two runs. *)
Lemma on_chunks_app (st : state) (c1 c2 : list (list Byte.byte)) :
  on_chunks st (c1 ++ c2)
  = (fst (on_chunks (fst (on_chunks st c1)) c2),
     snd (on_chunks st c1) ++ snd (on_chunks (fst (on_chunks st c1)) c2)).
Proof.
  revert st. induction c1 as [|c c1 IH]; intros st.
  - cbn [on_chunks app fst snd]. now destruct (on_chunks st c2).
  - cbn [on_chunks app]. destruct (on_data st c) as [s1 o1].
    rewrite IH. destruct (on_chunks s1 c1) as [s2 o2]. cbn [fst snd].
    now rewrite app_assoc.
Qed.

Lemma on_chunks_buffer (st : state) (chunks : list (list Byte.byte)) :
  includes (buffer st) nl = false ->
  includes (buffer (fst (on_chunks st chunks))) nl = false.
Proof.
  revert st. induction chunks as [|c chunks IH]; intros st H; [exact H |].
  cbn [on_chunks]. pose proof (on_text_buffer st (Utf8.Buffer_toString c)) as B.
  unfold on_data. destruct (on_text st _) as [s1 o1]. cbn [fst] in B.
  specialize (IH s1 B). now destruct (on_chunks s1 chunks).
Qed.

(** A last chunk without a line feed writes nothing: it stays in the
    buffer, and the handler of ['end'] ends the response without looking
    at the buffer. *)
Theorem unterminated_tail_is_dropped (chunks : list (list Byte.byte))
        (tail : list Byte.byte) :
  includes (Utf8.Buffer_toString tail) nl = false ->
  response_body (chunks ++ [tail]) = response_body chunks.
Proof.
  intros H. unfold response_body. rewrite on_chunks_app. cbn [snd].
  pose proof (on_chunks_buffer initial chunks eq_refl) as B.
  destruct (on_chunks initial chunks) as [st o]. cbn [fst snd] in *.
  cbn [on_chunks]. unfold on_data. rewrite on_text_without.
  - cbn [snd app]. now rewrite app_nil_r.
  - now rewrite includes_nl_app, B, H.
Qed.
Lemma unterminated_tail_is_dropped_witness :
  response_body
    [Utf8.bytes (wire "data: {'choices':[{'delta':{'content':'a'}}]}||");
     Utf8.bytes (wire "data: {'choices':[{'delta':{'content':'b'}}]}")]
  = response_body
      [Utf8.bytes (wire "data: {'choices':[{'delta':{'content':'a'}}]}||")].
Proof.
  apply (unterminated_tail_is_dropped
           [Utf8.bytes (wire "data: {'choices':[{'delta':{'content':'a'}}]}||")]
           (Utf8.bytes (wire "data: {'choices':[{'delta':{'content':'b'}}]}"))).
  reflexivity.
Defined.
End MoreStreamFacts.

(** ** The transformed event *)

Section DeltaFacts.
Import JSString JS Server.

Lemma merge_state (started : bool) (r c : value) :
  fst (merge started r c) <> started -> truthy r || truthy c = true.
Proof.
  unfold merge. destruct (truthy r), (truthy c); try reflexivity.
  destruct started; cbn [andb negb fst]; congruence.
Qed.

(** [reasoningStarted] changes only on a line of data without [[DONE]]
    that parses to an event whose first choice has a truthy delta with
    truthy reasoning or truthy content. *)
Theorem state_changes_only_on_delta (started : bool) (line : string) :
  fst (handle_line started line) <> started ->
  startsWith line "data: " = true
  /\ includes line "[DONE]" = false
  /\ exists data delta,
       JSON.parse (slice line 6) = Some data
       /\ delta_of data = Some delta
       /\ truthy delta = true
       /\ truthy (default VUndefined (get delta "reasoning_content"))
          || truthy (default VUndefined (get delta "content")) = true.
Proof.
  unfold handle_line.
  destruct (startsWith line "data: "); [| cbn [fst]; congruence].
  destruct (includes line "[DONE]"); [cbn [fst]; congruence |].
  destruct (JSON.parse (slice line 6)) as [data|]; [| cbn [fst]; congruence].
  intros H. repeat split. exists data.
  unfold transform in H. cbn [SHOW_REASONING] in H.
  destruct (delta_of data) as [delta|]; [| cbn [fst] in H; congruence].
  exists delta.
  destruct (truthy delta) eqn:T; [| cbn [fst] in H; congruence].
  repeat split.
  apply (merge_state started).
  destruct (merge started _ _) as [s' [combined|]]; cbn [fst] in *.
  - now destruct (truthy combined).
  - exact H.
Qed.

Lemma state_changes_only_on_delta_witness :
  startsWith (wire "data: {'choices':[{'delta':{'reasoning_content':'a'}}]}") "data: " = true
  /\ includes (wire "data: {'choices':[{'delta':{'reasoning_content':'a'}}]}") "[DONE]" = false
  /\ exists data delta,
       JSON.parse (slice (wire "data: {'choices':[{'delta':{'reasoning_content':'a'}}]}") 6)
       = Some data
       /\ delta_of data = Some delta
       /\ truthy delta = true
       /\ truthy (default VUndefined (get delta "reasoning_content"))
          || truthy (default VUndefined (get delta "content")) = true.
Proof.
  apply (state_changes_only_on_delta false). vm_compute. discriminate.
Defined.

(** Own properties under [replace], [set], [remove] and [update]. *)
Lemma own_replace (props : list (string * value)) (key : string) (x v : value) :
  own props key = Some x ->
  exists props', replace props key v = Some props' /\ own props' key = Some v.
Proof.
  induction props as [|[k y] props IH]; cbn [own replace]; [discriminate |].
  destruct (k =? key) eqn:E.
  - intros _. eexists. split; [reflexivity |]. cbn [own]. now rewrite E.
  - intros H. destruct (IH H) as [p' [R O]]. rewrite R. cbn [option_map].
    eexists. split; [reflexivity |]. cbn [own]. now rewrite E.
Qed.

Lemma get_update (v : value) (name : string) (f : value -> value) (x : value) :
  get v name = Some x -> x <> VUndefined ->
  get (update v name f) name = Some (f x).
Proof.
  destruct v; cbn [get update]; try congruence.
  destruct (own props name) as [y|] eqn:O; simpl; [| congruence].
  intros H _. inversion H; subst y.
  destruct (own_replace props name x (f x) O) as [p' [R O']].
  rewrite R. simpl. now rewrite O'.
Qed.

Lemma nullish_update (c : value) (f : value -> value) :
  nullish (update c "delta" f) = nullish c.
Proof.
  destruct c; try reflexivity. cbn [update]. now destruct (own props "delta").
Qed.

Lemma opt_get_update (c : value) (f : value -> value) (props : list (string * value)) :
  opt_get c "delta" = VObj props ->
  opt_get (update c "delta" f) "delta" = f (VObj props).
Proof.
  unfold opt_get. rewrite nullish_update.
  destruct (nullish c); [discriminate |].
  destruct (get c "delta") as [d|] eqn:G; simpl; [| discriminate].
  intros ->. rewrite (get_update _ _ _ _ G); [reflexivity | discriminate].
Qed.

Lemma delta_of_with_delta (f : value -> value) (data : value)
      (props : list (string * value)) :
  delta_of data = Some (VObj props) ->
  delta_of (with_delta f data) = Some (f (VObj props)).
Proof.
  unfold delta_of, with_delta.
  destruct (get data "choices") as [choices|] eqn:G; [| discriminate].
  intros H. assert (opt_get (opt_get0 choices) "delta" = VObj props) as H1
    by congruence. clear H.
  assert (choices <> VUndefined) as Hc.
  { intros ->. discriminate. }
  rewrite (get_update _ _ _ _ G Hc).
  f_equal.
  destruct choices as [| |b|n|s|elems|cprops]; try (simpl in H1; discriminate).
  - unfold opt_get0, get0 in H1. cbn [nullish] in H1. destruct (Utf8.first_unit s); simpl in H1; discriminate.
  - destruct elems as [|c0 rest]; [simpl in H1; discriminate |].
    cbn [update0]. change (opt_get0 (VArr (c0 :: rest))) with c0 in H1.
    change (opt_get0 (VArr (update c0 "delta" f :: rest)))
      with (update c0 "delta" f).
    now apply opt_get_update.
  - cbn [update0].
    destruct (own cprops "0") as [c0|] eqn:O.
    + assert (opt_get0 (VObj cprops) = c0) as E0
        by (unfold opt_get0, get0; cbn [nullish]; now rewrite O).
      rewrite E0 in H1.
      destruct (own_replace cprops "0" c0 (update c0 "delta" f) O) as [p' [R O']].
      unfold update at 1. rewrite O, R.
      unfold opt_get0, get0. cbn [nullish from_option id]. rewrite O'.
      cbn [from_option id].
      now apply opt_get_update.
    + unfold opt_get0, get0 in H1. cbn [nullish] in H1. rewrite O in H1.
      discriminate.
Qed.

Lemma own_set_other (props : list (string * value)) (k k' : string) (v : value) :
  (k =? k') = false -> own (JS.set props k v) k' = own props k'.
Proof.
  intros E. unfold JS.set.
  assert (forall p, replace props k v = Some p -> own p k' = own props k') as HR.
  { induction props as [|[a x] props IH]; cbn [replace]; [discriminate |].
    destruct (a =? k) eqn:Ea; intros p Hp.
    - inversion Hp; subst p. cbn [own].
      apply String.eqb_eq in Ea. subst a. now rewrite E.
    - destruct (replace props k v) as [q|]; [| discriminate].
      inversion Hp; subst p. cbn [own]. destruct (a =? k'); [reflexivity |].
      now apply IH. }
  destruct (replace props k v) as [p|]; [now apply HR |].
  assert (own [(k, v)] k' = None) as Hnew by (cbn [own]; now rewrite E).
  destruct (array_index k) as [i|].
  - clear HR. induction props as [|[a x] props IH]; cbn [insert_index own].
    + now rewrite E.
    + destruct (array_index a) as [j|].
      * destruct (j <? i)%Z; cbn [own]; [| now rewrite E].
        destruct (a =? k'); [reflexivity | exact IH].
      * cbn [own]. now rewrite E.
  - clear HR. induction props as [|[a x] props IH]; cbn [app own].
    + now rewrite E.
    + destruct (a =? k'); [reflexivity | exact IH].
Qed.

Lemma keys_set (props : list (string * value)) (k : string) (v : value) :
  NoDup (map fst props) -> NoDup (map fst (JS.set props k v)).
Proof.
  intros N. unfold JS.set.
  destruct (replace props k v) as [p|] eqn:R.
  - assert (map fst p = map fst props) as ->; [| exact N].
    clear N. revert p R.
    induction props as [|[a x] props IH]; cbn [replace]; [discriminate |].
    destruct (a =? k); intros p Hp.
    + now inversion Hp.
    + destruct (replace props k v) as [q|]; [| discriminate].
      inversion Hp. cbn [map fst]. f_equal. now apply IH.
  - assert (k ∉ map fst props) as Hk.
    { clear N. induction props as [|[a x] props IH]; cbn [replace] in R.
      - apply not_elem_of_nil.
      - destruct (a =? k) eqn:Ea; [discriminate |].
        destruct (replace props k v); [discriminate |].
        cbn [map fst]. apply not_elem_of_cons. split.
        + apply String.eqb_neq in Ea. congruence.
        + now apply IH. }
    destruct (array_index k) as [i|].
    + clear R. induction props as [|[a x] props IH]; cbn [insert_index].
      * cbn [map fst]. apply NoDup_cons. split; [apply not_elem_of_nil | constructor].
      * cbn [map fst] in N, Hk. apply NoDup_cons in N as [Na N].
        apply not_elem_of_cons in Hk as [Hka Hk].
        assert (NoDup (k :: a :: map fst props)) as Hfront.
        { apply NoDup_cons. split.
          - apply not_elem_of_cons. now split.
          - apply NoDup_cons. now split. }
        destruct (array_index a) as [j|]; [| exact Hfront].
        destruct (j <? i)%Z; [| exact Hfront].
        cbn [map fst]. apply NoDup_cons. split; [| now apply IH].
        intros Hin. apply list_elem_of_In, in_map_iff in Hin as [[b y] [Hb Hin]].
        cbn [fst] in Hb. subst b.
        assert (forall q, In (a, y) (insert_index q i k v) ->
                          (a, y) = (k, v) \/ In (a, y) q) as Hins.
        { clear. induction q as [|[c z] q IHq]; cbn [insert_index].
          - intros [H|[]]; now left.
          - destruct (array_index c) as [j|].
            + destruct (j <? i)%Z.
              * intros [H|H]; [right; now left |].
                destruct (IHq H) as [H'|H']; [now left | right; now right].
              * intros [H|H]; [now left | now right].
            + intros [H|H]; [now left | now right]. }
        destruct (Hins _ Hin) as [H|H].
        -- inversion H. congruence.
        -- apply Na. apply list_elem_of_In, in_map_iff. now exists (a, y).
    + rewrite map_app. cbn [map fst]. apply NoDup_app. split; [exact N |]. split.
      * intros x Hx Hx'. apply list_elem_of_singleton in Hx'. now subst.
      * apply NoDup_singleton.
Qed.

Lemma own_remove (props : list (string * value)) (k : string) :
  NoDup (map fst props) -> own (remove props k) k = None.
Proof.
  induction props as [|[a x] props IH]; [reflexivity |].
  cbn [map fst remove]. intros N. apply NoDup_cons in N as [Na N].
  destruct (a =? k) eqn:E.
  - apply String.eqb_eq in E. subst a.
    clear IH N. induction props as [|[b y] props IH]; [reflexivity |].
    cbn [own map fst] in *. apply not_elem_of_cons in Na as [Hb Na].
    destruct (b =? k) eqn:Eb; [apply String.eqb_eq in Eb; congruence |].
    now apply IH.
  - cbn [own]. rewrite E. now apply IH.
Qed.

Lemma own_remove_other (props : list (string * value)) (k k' : string) :
  (k =? k') = false -> own (remove props k) k' = own props k'.
Proof.
  intros E. induction props as [|[a x] props IH]; [reflexivity |].
  cbn [remove]. destruct (a =? k) eqn:Ea.
  - cbn [own]. apply String.eqb_eq in Ea. subst a. now rewrite E.
  - cbn [own]. destruct (a =? k'); [reflexivity | exact IH].
Qed.

Lemma own_set (props : list (string * value)) (k : string) (v : value) :
  own (JS.set props k v) k = Some v.
Proof.
  unfold JS.set. destruct (replace props k v) as [p|] eqn:R.
  - revert p R. induction props as [|[a x] props IH]; cbn [replace]; [discriminate |].
    destruct (a =? k) eqn:Ea; intros p Hp.
    + inversion Hp. cbn [own]. now rewrite Ea.
    + destruct (replace props k v) as [q|]; [| discriminate].
      inversion Hp. cbn [own]. rewrite Ea. now apply IH.
  - assert (forall a x, In (a, x) props -> (a =? k) = false) as Hk.
    { induction props as [|[a x] props IH]; cbn [replace] in R; [intros ? ? [] |].
      destruct (a =? k) eqn:Ea; [discriminate |].
      destruct (replace props k v); [discriminate |].
      intros b y [H|H]; [inversion H; now subst | now apply (IH eq_refl b y)]. }
    destruct (array_index k) as [i|].
    + clear R. induction props as [|[a x] props IH]; cbn [insert_index own].
      * now rewrite String.eqb_refl.
      * destruct (array_index a) as [j|].
        -- destruct (j <? i)%Z; cbn [own].
           ++ rewrite (Hk a x (or_introl eq_refl)). apply IH.
              intros b y H. apply (Hk b y). now right.
           ++ now rewrite String.eqb_refl.
        -- cbn [own]. now rewrite String.eqb_refl.
    + clear R. induction props as [|[a x] props IH]; cbn [app own].
      * now rewrite String.eqb_refl.
      * rewrite (Hk a x (or_introl eq_refl)). apply IH.
        intros b y H. apply (Hk b y). now right.
Qed.

Lemma plus_string_l (a : string) (v c : value) :
  plus (VStr a) v = Some c -> exists s, c = VStr (a +:+ s).
Proof.
  unfold plus. cbn [toPrimitive]. destruct (toPrimitive v) as [pv|]; [| discriminate].
  cbn [is_string orb toString]. destruct (toString pv) as [sv|]; [| discriminate].
  intros H. inversion H. now exists sv.
Qed.

Lemma plus_string_r (b : string) (v c : value) :
  plus v (VStr b) = Some c -> exists s, c = VStr (s +:+ b).
Proof.
  unfold plus. cbn [toPrimitive]. destruct (toPrimitive v) as [pv|]; [| discriminate].
  cbn [is_string]. rewrite orb_true_r. cbn [toString].
  destruct (toString pv) as [sv|]; [| discriminate].
  intros H. inversion H. now exists sv.
Qed.

Lemma truthy_append_l (x : ascii) (a s : string) :
  truthy (VStr (String x a +:+ s)) = true.
Proof. now rewrite append_cons. Qed.

Lemma truthy_append_r (s : string) (x : ascii) (b : string) :
  truthy (VStr (s +:+ String x b)) = true.
Proof.
  destruct s as [|y s]; [now rewrite append_nil | now rewrite append_cons].
Qed.

(** With reasoning in the delta the merged content is never empty. *)
Lemma merge_reasoning (started started' : bool) (r c combined : value) :
  truthy r = true ->
  merge started r c = (started', Some combined) ->
  truthy combined = true.
Proof.
  intros R. unfold merge. rewrite R.
  destruct started; cbn [andb negb].
  - destruct (truthy c); cbn [andb].
    + destruct (plus (VStr THINK_CLOSE) c) as [cl|] eqn:P; [| discriminate].
      destruct (plus_string_l _ _ _ P) as [s ->].
      destruct (plus r _) as [x|] eqn:P2; [| discriminate].
      destruct (plus_string_r _ _ _ P2) as [s2 ->].
      intros H. inversion H. apply truthy_append_r.
    + intros H. inversion H; subst. exact R.
  - destruct (plus (VStr THINK_OPEN) r) as [op|] eqn:P; [| discriminate].
    destruct (plus_string_l _ _ _ P) as [s ->].
    destruct (truthy c); cbn [andb].
    + destruct (plus (VStr THINK_CLOSE) c) as [cl|] eqn:P1; [| discriminate].
      destruct (plus_string_l _ _ _ P1) as [s1 ->].
      rewrite plus_strings.
      intros H. inversion H. apply truthy_append_l.
    + intros H. inversion H. apply truthy_append_l.
Qed.

(** An event whose delta is an object with truthy reasoning goes out, if
    it goes out transformed, with a delta that has no
    [reasoning_content] of its own and has a [content], with the toggle
    on or off. *)
Theorem merged_event_drops_reasoning (show started : bool) (data : value)
        (props : list (string * value)) :
  delta_of data = Some (VObj props) ->
  NoDup (map fst props) ->
  truthy (default VUndefined (own props "reasoning_content")) = true ->
  forall started' data',
    transform show started data = (started', Some data') ->
    exists props',
      delta_of data' = Some (VObj props')
      /\ own props' "reasoning_content" = None
      /\ is_Some (own props' "content").
Proof.
  intros D N R started' data'. unfold transform. rewrite D.
  change (truthy (VObj props)) with true. cbv iota.
  change (default VUndefined (get (VObj props) "reasoning_content"))
    with (default VUndefined (own props "reasoning_content")).
  change (default VUndefined (get (VObj props) "content"))
    with (default VUndefined (own props "content")).
  assert (forall c d,
    d = with_delta (fun x => delete_reasoning (set_content c x)) data ->
    exists props',
      delta_of d = Some (VObj props')
      /\ own props' "reasoning_content" = None
      /\ is_Some (own props' "content")) as Hout.
  { intros c d ->. rewrite (delta_of_with_delta _ _ _ D).
    cbn [set_content delete_reasoning].
    eexists. split; [reflexivity |]. split.
    - apply own_remove. now apply keys_set.
    - rewrite own_remove_other by reflexivity. rewrite own_set. now eexists. }
  destruct show.
  - destruct (merge started _ _) as [s' [combined|]] eqn:M; [| discriminate].
    rewrite (merge_reasoning _ _ _ _ _ R M).
    intros H. inversion H. eapply Hout. reflexivity.
  - intros H. inversion H. eapply Hout. reflexivity.
Qed.

Lemma merged_event_drops_reasoning_witness :
  exists props',
    delta_of (delta_event [("content", VStr (wire "<think>|a</think>||c"))])
    = Some (VObj props')
    /\ own props' "reasoning_content" = None
    /\ is_Some (own props' "content").
Proof.
  apply (merged_event_drops_reasoning true false
           (delta_event [("reasoning_content", VStr "a"); ("content", VStr "c")])
           [("reasoning_content", VStr "a"); ("content", VStr "c")]
           eq_refl) with (started' := false).
  - apply NoDup_cons. split; [| apply NoDup_singleton].
    intros H. apply list_elem_of_singleton in H. discriminate.
  - reflexivity.
  - vm_compute. reflexivity.
Defined.
End DeltaFacts.

(** ** The Worker's handler *)

Section WorkerFacts.
Import JSString JS Worker.

(** A response that is made has the headers and the status it was made
    with. *)
Lemma new_Response_headers (b : payload) (st : Z) (hs : list (string * value))
      (r : response) :
  new_Response b st hs = inr r -> headers r = hs.
Proof.
  unfold new_Response.
  destruct ((st <? 200)%Z || (599 <? st)%Z); [discriminate |].
  destruct (null_body_status st && _); [discriminate |].
  intros H. now inversion H.
Qed.

Lemma jsonResponse_cors (obj : value) (st : Z) (extra : list (string * value))
      (r : response) :
  extra = [] \/ extra = [("Location", VStr "/health")] ->
  jsonResponse obj st extra = inr r -> has_cors (headers r).
Proof.
  intros E H. apply new_Response_headers in H. rewrite H.
  destruct E as [-> | ->]; repeat constructor.
Qed.

Lemma textResponse_cors (text : string) (st : Z) (r : response) :
  textResponse text st [] = inr r -> has_cors (headers r).
Proof.
  intros H. apply new_Response_headers in H. rewrite H. repeat constructor.
Qed.

Lemma completions_cors (E : env) (clock : nat -> Z)
      (fetch : upstream_request -> exn + upstream) (json : option value)
      (r : response) :
  completions E clock fetch json = inr r -> has_cors (headers r).
Proof.
  unfold completions.
  destruct (NIM_API_KEY E) as [nimKey|]; [| discriminate].
  destruct (negb (truthy (VStr nimKey))).
  { apply jsonResponse_cors. now left. }
  destruct (get (default (VObj []) json) "model") as [model0|]; [| discriminate].
  cbn [lift bind].
  destruct (resolve_value _) as [nimModel|]; [| discriminate].
  cbn [lift bind].
  destruct (fetch _) as [e|nimResp]; [discriminate |].
  cbn [bind].
  destruct (truthy (default VUndefined (get (default (VObj []) json) "stream"))).
  { intros H. apply new_Response_headers in H. rewrite H. repeat constructor. }
  destruct (negb (truthy (up_json nimResp))).
  { apply textResponse_cors. }
  destruct (openaiResponse _ _ _ _) as [o|]; [| discriminate].
  cbn [lift bind]. apply jsonResponse_cors. now left.
Qed.

Lemma routes_cors (E : env) (clock : nat -> Z)
      (fetch : upstream_request -> exn + upstream) (method path : string)
      (json : option value) (r : response) :
  routes E clock fetch method path json = inr r -> has_cors (headers r).
Proof.
  unfold routes.
  repeat match goal with
         | |- context [if ?b then _ else _] => destruct b
         end;
    try (apply jsonResponse_cors; auto);
    try apply completions_cors.
  intros H. apply new_Response_headers in H. rewrite H. repeat constructor.
Qed.

(** [handleRequest] never rejects: whatever the request, the bindings,
    the clock and [fetch] (which may throw), it resolves to a response,
    and the response carries the three CORS headers. *)
Theorem handleRequest_responds_with_cors (message : exn -> string) (E : env)
        (clock : nat -> Z) (fetch : upstream_request -> exn + upstream)
        (method path : string) (json : option value) :
  exists r,
    handleRequest message E clock fetch method path json = inr r
    /\ has_cors (headers r).
Proof.
  unfold handleRequest. destruct (method =? "OPTIONS").
  - eexists. split; [reflexivity | repeat constructor].
  - destruct (routes E clock fetch method path json) as [err|r] eqn:R.
    + eexists. split; [reflexivity | repeat constructor].
    + exists r. split; [reflexivity | now apply routes_cors in R].
Qed.

(** Outside a POST to /v1/chat/completions with a truthy key the
    response does not depend on [fetch]: the upstream is not called. *)
Theorem no_upstream_call_elsewhere (message : exn -> string) (E : env)
        (clock : nat -> Z) (fetch1 fetch2 : upstream_request -> exn + upstream)
        (method path : string) (json : option value) :
  may_fetch E method path = false ->
  handleRequest message E clock fetch1 method path json
  = handleRequest message E clock fetch2 method path json.
Proof.
  unfold may_fetch, handleRequest, routes. intros H.
  destruct (method =? "OPTIONS") eqn:O; [reflexivity |].
  destruct (method =? "POST") eqn:P.
  - apply String.eqb_eq in P. subst method.
    destruct (path =? "/v1/chat/completions") eqn:C.
    + apply String.eqb_eq in C. subst path. cbn [andb] in *.
      change ("/v1/chat/completions" =? "/") with false.
      change ("/v1/chat/completions" =? "/health") with false.
      change ("/v1/chat/completions" =? "/v1/health") with false.
      change ("/v1/chat/completions" =? "/v1/models") with false.
      change ("/v1/chat/completions" =? "/v1/chat/completions") with true.
      change ("POST" =? "GET") with false.
      change ("POST" =? "POST") with true.
      cbn [andb]. unfold completions.
      destruct (NIM_API_KEY E) as [k|]; [| reflexivity].
      cbn [from_option] in H. now rewrite H.
    + change ("POST" =? "GET") with false. rewrite !andb_false_r. cbn [andb].
      reflexivity.
  - rewrite !andb_false_r. reflexivity.
Qed.
Lemma new_Response_status (b : payload) (st : Z) (hs : list (string * value))
      (r : response) :
  new_Response b st hs = inr r -> status r = st.
Proof.
  unfold new_Response.
  destruct ((st <? 200)%Z || (599 <? st)%Z); [discriminate |].
  destruct (null_body_status st && _); [discriminate |].
  intros H. now inversion H.
Qed.

Lemma completions_status (E : env) (clock : nat -> Z)
      (fetch : upstream_request -> exn + upstream) (json : option value)
      (nimResp : upstream) (r : response) :
  from_option (fun key => truthy (VStr key)) false (NIM_API_KEY E) = true ->
  (forall req, fetch req = inr nimResp) ->
  completions E clock fetch json = inr r -> status r = up_status nimResp.
Proof.
  intros K F. unfold completions.
  destruct (NIM_API_KEY E) as [nimKey|]; [| discriminate].
  cbn [from_option] in K. rewrite K. cbn [negb].
  destruct (get (default (VObj []) json) "model") as [model0|]; [| discriminate].
  cbn [lift bind].
  destruct (resolve_value _) as [nimModel|]; [| discriminate].
  cbn [lift bind]. rewrite F. cbn [bind].
  destruct (truthy (default VUndefined (get (default (VObj []) json) "stream"))).
  { apply new_Response_status. }
  destruct (negb (truthy (up_json nimResp))).
  { apply new_Response_status. }
  destruct (openaiResponse _ _ _ _) as [o|]; [| discriminate].
  cbn [lift bind]. apply new_Response_status.
Qed.

(** When the upstream answers a request that gets as far as [fetch], the
    status of the response is the status of the upstream, or 500 (an
    error was caught: the body is [null], the model has no
    [toLowerCase], the status is one [Response] refuses, ...). *)
Theorem upstream_status_or_500 (message : exn -> string) (E : env)
        (clock : nat -> Z) (fetch : upstream_request -> exn + upstream)
        (method path : string) (json : option value) (nimResp : upstream) :
  may_fetch E method path = true ->
  (forall req, fetch req = inr nimResp) ->
  exists r,
    handleRequest message E clock fetch method path json = inr r
    /\ (status r = up_status nimResp \/ status r = 500%Z).
Proof.
  unfold may_fetch. intros H F.
  apply andb_prop in H as [H K]. apply andb_prop in H as [P C].
  apply String.eqb_eq in P. apply String.eqb_eq in C. subst method path.
  unfold handleRequest, routes.
  change ("POST" =? "OPTIONS") with false.
  change ("/v1/chat/completions" =? "/") with false.
  change ("/v1/chat/completions" =? "/health") with false.
  change ("/v1/chat/completions" =? "/v1/health") with false.
  change ("/v1/chat/completions" =? "/v1/models") with false.
  change ("/v1/chat/completions" =? "/v1/chat/completions") with true.
  change ("POST" =? "GET") with false.
  change ("POST" =? "POST") with true.
  cbn [andb].
  destruct (completions E clock fetch json) as [err|r] eqn:R.
  - eexists. split; [reflexivity | now right].
  - exists r. split; [reflexivity | left].
    now apply (completions_status E clock fetch json).
Qed.

Lemma upstream_status_or_500_witness :
  exists r,
    handleRequest (fun _ => "error")
      {| NIM_API_BASE := None; NIM_API_KEY := Some "nvapi-key" |}
      (fun _ => 1700000000123%Z)
      (fun _ => inr {| up_status := 429;
                       up_body := Some [Utf8.bytes (wire "{'detail':'Too Many Requests'}")] |})
      "POST" "/v1/chat/completions"
      (Some (VObj [("model", VStr "gpt-4o"); ("messages", VArr [])]))
    = inr r
    /\ (status r = 429%Z \/ status r = 500%Z).
Proof.
  apply (upstream_status_or_500 (fun _ => "error")
           {| NIM_API_BASE := None; NIM_API_KEY := Some "nvapi-key" |}
           (fun _ => 1700000000123%Z)
           (fun _ => inr {| up_status := 429;
                            up_body :=
                              Some [Utf8.bytes (wire "{'detail':'Too Many Requests'}")] |})
           "POST" "/v1/chat/completions"
           (Some (VObj [("model", VStr "gpt-4o"); ("messages", VArr [])]))
           {| up_status := 429;
              up_body := Some [Utf8.bytes (wire "{'detail':'Too Many Requests'}")] |}).
  - reflexivity.
  - reflexivity.
Defined.

Lemma no_upstream_call_elsewhere_witness :
  handleRequest (fun _ => "error")
    {| NIM_API_BASE := None; NIM_API_KEY := Some "" |}
    (fun _ => 1700000000123%Z)
    (fun _ => inl (FetchError "network"))
    "POST" "/v1/chat/completions" None
  = handleRequest (fun _ => "error")
      {| NIM_API_BASE := None; NIM_API_KEY := Some "" |}
      (fun _ => 1700000000123%Z)
      (fun _ => inr {| up_status := 200; up_body := None |})
      "POST" "/v1/chat/completions" None.
Proof.
  apply (no_upstream_call_elsewhere (fun _ => "error")
           {| NIM_API_BASE := None; NIM_API_KEY := Some "" |}
           (fun _ => 1700000000123%Z)
           (fun _ => inl (FetchError "network"))
           (fun _ => inr {| up_status := 200; up_body := None |})
           "POST" "/v1/chat/completions" None).
  reflexivity.
Defined.
End WorkerFacts.

(** ** The responses that do not stream *)

Section ResponseFacts.
Import JSString JS.

(** For a message whose content and reasoning are text or missing, and a
    choice with no content or reasoning beside its message, the two
    deployments give the same content: the content alone without
    reasoning, else the reasoning in its block and the content after
    it. *)
Theorem wrapped_content_in_both (choice message : value) (r c : option string) :
  get choice "message" = Some message ->
  opt_get message "content" = field c ->
  opt_get message "reasoning_content" = field r ->
  nullish (default VUndefined (get choice "content")) = true ->
  nullish (default VUndefined (get choice "reasoning_content")) = true ->
  Server.fullContent message = Some (VStr (Server.wrapped r c))
  /\ Worker.full choice = Some (VStr (Server.wrapped r c)).
Proof.
  intros M C R NC NR. split.
  - unfold Server.fullContent, Server.wrapped. rewrite C, R.
    cbn [Server.SHOW_REASONING andb].
    assert (or (field c) (VStr "") = VStr (default "" c)) as ->.
    { destruct c as [c|]; [| reflexivity]. unfold or. cbn [field from_option truthy].
      destruct (c =? "") eqn:E; [| reflexivity].
      apply String.eqb_eq in E. now subst. }
    destruct r as [r|]; cbn [field from_option truthy id]; [| reflexivity].
    destruct (r =? "") eqn:E; cbn [negb]; [reflexivity |].
    rewrite !plus_strings. now rewrite !append_assoc.
  - unfold Worker.full, Server.wrapped. rewrite M, C, R.
    cbn [Worker.SHOW_REASONING andb].
    assert (nullish_or (nullish_or (field c) (default VUndefined (get choice "content")))
                       (VStr "") = VStr (default "" c)) as ->.
    { destruct c as [c|]; [reflexivity |]. unfold nullish_or at 2.
      cbn [field from_option nullish]. unfold nullish_or. now rewrite NC. }
    destruct r as [r|].
    + cbn [field from_option nullish_or nullish truthy id].
      unfold nullish_or. cbn [nullish truthy].
      destruct (r =? "") eqn:E; cbn [negb]; [reflexivity |].
      cbn [toString]. unfold Server.THINK_OPEN, Server.THINK_CLOSE.
      now rewrite !append_assoc.
    + unfold nullish_or at 1. cbn [field from_option nullish].
      destruct (default VUndefined (get choice "reasoning_content")); try discriminate;
        reflexivity.
Qed.

Lemma wrapped_content_in_both_witness :
  let message := VObj [("role", VStr "assistant"); ("content", VStr "Hi");
                       ("reasoning_content", VStr "thinking...")] in
  Server.fullContent message = Some (VStr (wire "<think>|thinking...|</think>||Hi"))
  /\ Worker.full (VObj [("index", zero); ("message", message)])
     = Some (VStr (wire "<think>|thinking...|</think>||Hi")).
Proof.
  intros message.
  apply (wrapped_content_in_both (VObj [("index", zero); ("message", message)])
           message (Some "thinking...") (Some "Hi")); reflexivity.
Defined.
End ResponseFacts.

Section ChoiceFacts.
Import JSString JS.

(** What the callbacks give has the shape of [outbound]. *)
Lemma Server_choice_shape (i o : value) :
  Server.choice_of i = Some o -> Server.outbound i o.
Proof.
  unfold Server.choice_of.
  destruct (get i "message") as [m|]; [| discriminate].
  destruct (Server.fullContent m) as [c|]; [| discriminate].
  destruct (get m "role") as [role|]; [| discriminate].
  intros H. inversion H. now exists role, c.
Qed.

Lemma Worker_choice_shape (i o : value) :
  Worker.choice_of i = Some o -> Worker.outbound i o.
Proof.
  unfold Worker.choice_of.
  destruct (Worker.full i) as [c|]; [| discriminate].
  intros H. inversion H. now eexists _, c.
Qed.

(** The choices of the response of the server are those of the upstream,
    as many and in their order, each with its index and finish reason
    and a message of a role and a content only. *)
Theorem Server_choices_in_order (clock : nat -> Z) (model : string)
        (data out : value) (elems : list value) :
  get data "choices" = Some (VArr elems) ->
  Server.openaiResponse clock model data = Some out ->
  exists choices,
    get out "choices" = Some (VArr choices)
    /\ Forall2 Server.outbound elems choices.
Proof.
  intros G. unfold Server.openaiResponse. rewrite G.
  destruct (mapM Server.choice_of elems) as [choices|] eqn:M; [| discriminate].
  intros H. inversion H. exists choices. split; [reflexivity |].
  apply mapM_Some in M. eapply Forall2_impl; [exact M |].
  apply Server_choice_shape.
Qed.

Lemma Server_choices_in_order_witness :
  exists choices,
    get (VObj [("id", VStr "chatcmpl-1700000000123");
               ("object", VStr "chat.completion");
               ("created", VNum (Num.of_int 1700000000));
               ("model", VStr "gpt-4o");
               ("choices",
                VArr [VObj [("index", zero);
                            ("message",
                             VObj [("role", VStr "assistant"); ("content", VStr "a")]);
                            ("finish_reason", VStr "stop")]]);
               ("usage", zero_usage)])
        "choices"
    = Some (VArr choices)
    /\ Forall2 Server.outbound
         [VObj [("index", zero);
                ("message", VObj [("role", VStr "assistant"); ("content", VStr "a")]);
                ("finish_reason", VStr "stop"); ("logprobs", VNull)]]
         choices.
Proof.
  apply (Server_choices_in_order (fun _ => 1700000000123%Z) "gpt-4o"
           (VObj [("id", VStr "x");
                  ("choices",
                   VArr [VObj [("index", zero);
                               ("message",
                                VObj [("role", VStr "assistant");
                                      ("content", VStr "a")]);
                               ("finish_reason", VStr "stop");
                               ("logprobs", VNull)]])])).
  - reflexivity.
  - vm_compute. reflexivity.
Defined.

(** The same for the Worker, with [0] and [null] for a missing index and
    finish reason; and choices that are no array give the empty
    array. *)
Theorem Worker_choices_in_order (clock : nat -> Z) (model : value) (nimModel : any)
        (nimJson out : value) :
  Worker.openaiResponse clock model nimModel nimJson = Some out ->
  exists choices,
    get out "choices" = Some (VArr choices)
    /\ Forall2 Worker.outbound
         match default VUndefined (get nimJson "choices") with
         | VArr elems => elems
         | _ => []
         end
         choices.
Proof.
  unfold Worker.openaiResponse.
  destruct (default VUndefined (get nimJson "choices")) as [| | | | |elems|];
    try (intros H; inversion H; exists []; split; [reflexivity | constructor]).
  destruct (mapM Worker.choice_of elems) as [choices|] eqn:M; [| discriminate].
  intros H. inversion H. exists choices. split; [reflexivity |].
  apply mapM_Some in M. eapply Forall2_impl; [exact M |].
  apply Worker_choice_shape.
Qed.

Lemma Worker_choices_in_order_witness :
  exists choices,
    get (VObj [("id", VStr "chatcmpl-1700000000123");
               ("object", VStr "chat.completion");
               ("created", VNum (Num.of_int 1700000000));
               ("model", VStr "gpt-4o");
               ("choices",
                VArr [VObj [("index", zero);
                            ("message",
                             VObj [("role", VStr "assistant"); ("content", VStr "a")]);
                            ("finish_reason", VNull)]]);
               ("usage", zero_usage)])
        "choices"
    = Some (VArr choices)
    /\ Forall2 Worker.outbound [VObj [("content", VStr "a")]] choices.
Proof.
  apply (Worker_choices_in_order (fun _ => 1700000000123%Z) (VStr "gpt-4o")
           (Data (VStr "deepseek-ai/deepseek-v3.1"))
           (VObj [("choices", VArr [VObj [("content", VStr "a")]])])).
  vm_compute. reflexivity.
Defined.

(** A choice whose [message] is [undefined] or [null]: the callback of
    the server throws and no response is built, the callback of the
    Worker gives the role [assistant]. *)
Theorem choice_without_message (clock : nat -> Z) (model : string)
        (data choice message : value) (elems : list value) :
  get data "choices" = Some (VArr elems) ->
  choice ∈ elems ->
  get choice "message" = Some message ->
  nullish message = true ->
  Server.openaiResponse clock model data = None
  /\ Worker.choice_of choice
     = option_map
         (fun content =>
            VObj [("index", nullish_or (default VUndefined (get choice "index")) zero);
                  ("message", VObj [("role", VStr "assistant"); ("content", content)]);
                  ("finish_reason",
                   nullish_or (default VUndefined (get choice "finish_reason")) VNull)])
         (Worker.full choice).
Proof.
  intros G I M N. split.
  - unfold Server.openaiResponse. rewrite G.
    assert (mapM Server.choice_of elems = None) as ->; [| reflexivity].
    apply mapM_None. apply Exists_exists. exists choice. split; [exact I |].
    unfold Server.choice_of. rewrite M.
    destruct (Server.fullContent message); [| reflexivity].
    destruct message; try discriminate; reflexivity.
  - unfold Worker.choice_of. rewrite M. cbn [from_option id].
    unfold opt_get. rewrite N.
    destruct (Worker.full choice); reflexivity.
Qed.

Lemma choice_without_message_witness :
  Server.openaiResponse (fun _ => 0%Z) "gpt-4o"
    (VObj [("choices", VArr [VObj [("index", zero); ("text", VStr "hi")]])]) = None
  /\ Worker.choice_of (VObj [("index", zero); ("text", VStr "hi")])
     = Some (VObj [("index", zero);
                   ("message", VObj [("role", VStr "assistant"); ("content", VStr "")]);
                   ("finish_reason", VNull)]).
Proof.
  refine (choice_without_message (fun _ => 0%Z) "gpt-4o"
            (VObj [("choices", VArr [VObj [("index", zero); ("text", VStr "hi")]])])
            (VObj [("index", zero); ("text", VStr "hi")]) VUndefined
            [VObj [("index", zero); ("text", VStr "hi")]] _ _ _ _).
  - reflexivity.
  - apply list_elem_of_In. left. reflexivity.
  - reflexivity.
  - reflexivity.
Defined.

End ChoiceFacts.

(** ** The listed models *)

Section ModelsFacts.
Import JSString JS.

(** The ids of the entries are the keys, in their order. *)
Lemma Worker_models_ids (clock : nat -> Z) (k : nat) (ids : list string) :
  map (fun m => get m "id") (Worker.models_from clock k ids)
  = map (fun id => Some (VStr id)) ids.
Proof.
  revert k. induction ids as [| id ids IH]; intros k; [reflexivity |].
  cbn [Worker.models_from map]. now rewrite IH.
Qed.

Lemma Server_models_ids (clock : nat -> Z) (k : nat) (ids : list string) :
  map (fun m => get m "id") (Server.models_from clock k ids)
  = map (fun id => Some (VStr id)) ids.
Proof.
  revert k. induction ids as [| id ids IH]; intros k; [reflexivity |].
  cbn [Server.models_from map]. now rewrite IH.
Qed.

Lemma assoc_keys (table : list (string * string)) (k : string) :
  In k (keys table) -> exists v, assoc table k = Some v.
Proof.
  induction table as [| [k' v'] table IH]; [intros [] |].
  intros I. cbn [assoc]. destruct (String.eqb _ _) eqn:E.
  - now exists v'.
  - apply IH. destruct I as [I | I]; [| exact I].
    cbn [fst] in I. subst k'. 
    rewrite ?String.eqb_refl in E. discriminate.
Qed.

(** /v1/models lists the keys of the table, in their order, and every
    listed id resolves to the value the table gives it, in both
    deployments. *)
Theorem listed_models_resolve (clock : nat -> Z) :
  (map (fun m => get m "id") (Worker.models clock)
   = map (fun id => Some (VStr id)) (keys Worker.MODEL_MAPPING)
   /\ forall id, In id (keys Worker.MODEL_MAPPING) ->
        exists nim, assoc Worker.MODEL_MAPPING id = Some nim
                    /\ Worker.resolve id = Data (VStr nim)
                    /\ Worker.resolve_value (VStr id) = Some (Data (VStr nim)))
  /\ (map (fun m => get m "id") (Server.models clock)
      = map (fun id => Some (VStr id)) (keys Server.MODEL_MAPPING)
      /\ forall id, In id (keys Server.MODEL_MAPPING) ->
           exists nim, assoc Server.MODEL_MAPPING id = Some nim
                       /\ Server.resolve id = Data (VStr nim)).
Proof.
  split; split.
  - apply Worker_models_ids.
  - intros id I. destruct (assoc_keys _ _ I) as [nim A]. exists nim.
    split; [exact A |]. pose proof (Worker_resolve_mapped _ _ A) as R.
    split; [exact R |].
    unfold Worker.resolve_value. cbn [toString].
    unfold Worker.resolve in R. 
    destruct (negb (truthy_any (lookup Worker.MODEL_MAPPING id))) eqn:T.
    + unfold lookup in T. rewrite A in T. cbn [truthy_any] in T.
      unfold Worker.MODEL_MAPPING in A. cbn [assoc] in A.
      repeat match type of A with
             | (if ?b then _ else _) = _ => destruct b
             end; inversion A; subst; discriminate.
    + now rewrite R.
  - apply Server_models_ids.
  - intros id I. destruct (assoc_keys _ _ I) as [nim A]. exists nim.
    split; [exact A |]. now apply Server_resolve_mapped.
Qed.
(** On a string [resolve_value] is [resolve]. *)
Lemma Worker_resolve_value_string (model : string) :
  Worker.resolve_value (VStr model) = Some (Worker.resolve model).
Proof.
  unfold Worker.resolve_value, Worker.resolve. cbn [toString]. cbv zeta.
  destruct (negb (truthy_any (lookup Worker.MODEL_MAPPING model))); [| reflexivity].
  unfold or. now destruct (truthy (VStr model)).
Qed.

Lemma Server_resolve_value_string (model : string) :
  Server.resolve_value (VStr model) = Some (Server.resolve model).
Proof.
  unfold Server.resolve_value, Server.resolve. cbn [toString]. cbv zeta.
  now destruct (negb (truthy_any (lookup Server.MODEL_MAPPING model))).
Qed.

(** A falsy [model] ([null], [false], [0], [NaN], [''], and [undefined]
    in the server): the Worker resolves it to the smallest model, the
    server throws unless it is the empty string, which it keeps. *)
Theorem falsy_model_resolution (model : value) :
  truthy model = false ->
  Worker.resolve_value model = Some (Data (VStr "meta/llama-3.1-8b-instruct"))
  /\ Server.resolve_value model
     = (if is_string model then Some (Data (VStr "")) else None).
Proof.
  destruct model as [| |b|n|s|elems|props]; cbn [truthy]; intros H;
    try discriminate.
  - split; reflexivity.
  - split; reflexivity.
  - subst b. split; reflexivity.
  - destruct n as [z| | |neg m e]; try discriminate; split; reflexivity.
  - apply negb_false_iff, String.eqb_eq in H. subst s. split; reflexivity.
Qed.

Lemma falsy_model_resolution_witness :
  Worker.resolve_value VNull = Some (Data (VStr "meta/llama-3.1-8b-instruct"))
  /\ Server.resolve_value VNull = None.
Proof. apply (falsy_model_resolution VNull). reflexivity. Defined.
End ModelsFacts.
